(** * langchain_llm: configuration provider and log formatter

    A shallow embedding of [src/langchain_llm/config.py] and of
    [CustomFormatter.format] from [src/langchain_llm/logging_config.py],
    followed by the properties of the specification that concern them.

    Conventions.
    - A Python [str] is a Rocq [string]; its characters are read as code
      points below 256.
    - A Python call that may raise returns a [result]: [Return v] for a
      normal return, [Raise e] for an exception that leaves the call.
    - [None] is [option]'s [None]; [os.environ] is a finite map from
      variable names to values, and [os.getenv] is its lookup.
    - A [dict] whose iteration order matters is an association list in
      insertion order; a [dict] that is only looked up is a finite map.
    - Paths are POSIX paths and [os.sep] is the slash. *)

From Stdlib Require Import Ascii String NArith.
From stdpp Require Import base option list gmap strings pretty.

Local Open Scope N_scope.

(** ** Python values *)

Module Py.

(** [str.lower] on one code point below 256: the upper-case letters of
    ASCII and of Latin-1 (U+00C0..U+00DE without the multiplication sign
    U+00D7) move 32 places up, everything else stays. *)
Definition lower_char (c : ascii) : ascii :=
  let n := N_of_ascii c in
  if ((65 <=? n) && (n <=? 90))
     || ((192 <=? n) && (n <=? 222) && negb (n =? 215))
  then ascii_of_N (n + 32)
  else c.

Fixpoint lower (s : string) : string :=
  match s with
  | EmptyString => EmptyString
  | String c s' => String (lower_char c) (lower s')
  end.

(** The exception classes that occur in the two modules.  [ConfigError]
    is the class declared in [config.py]; it derives from [Exception], as
    do all the others listed here. *)
Inductive exn : Type :=
| ValueError (msg : string)
| ConfigError (msg : string)
| TypeError (msg : string)
| AttributeError (msg : string)
| KeyError (msg : string).

Inductive result (A : Type) : Type :=
| Return (v : A)
| Raise (e : exn).
Arguments Return {A} v.
Arguments Raise {A} e.

Definition bind {A B} (m : result A) (k : A -> result B) : result B :=
  match m with
  | Return v => k v
  | Raise e => Raise e
  end.

Definition raises {A} (m : result A) : Prop := exists e, m = Raise e.

(** [try: m except (C1, ...) as e: h e] where [caught] decides the listed
    classes. *)
Definition try_except {A} (m : result A) (caught : exn -> bool)
    (h : exn -> result A) : result A :=
  match m with
  | Return v => Return v
  | Raise e => if caught e then h e else Raise e
  end.

(** Truth value of a [str | None]: [None] and the empty string are
    false. *)
Definition truthy (o : option string) : bool :=
  match o with
  | None => false
  | Some EmptyString => false
  | Some (String _ _) => true
  end.

(** [sub in s] on strings. *)
Fixpoint contains (sub s : string) : bool :=
  String.prefix sub s ||
  match s with
  | EmptyString => false
  | String _ s' => contains sub s'
  end.

(** [s.endswith(suffix)]. *)
Definition endswith (s suffix : string) : bool :=
  let n := String.length s in
  let k := String.length suffix in
  (k <=? n)%nat && String.eqb (String.substring (n - k) k s) suffix.

(** [s.replace(old, new)] for one-character [old] and [new]. *)
Fixpoint replace_char (old new : ascii) (s : string) : string :=
  match s with
  | EmptyString => EmptyString
  | String c s' =>
      String (if Ascii.eqb c old then new else c) (replace_char old new s')
  end.

(** A [dict] with string keys, in insertion order. *)
Definition dict (V : Type) : Type := list (string * V).

Fixpoint dict_get {V} (d : dict V) (k : string) : option V :=
  match d with
  | [] => None
  | (k', v) :: d' => if String.eqb k' k then Some v else dict_get d' k
  end.

Definition dict_keys {V} (d : dict V) : list string := map fst d.

(** [sorted] on a list of strings: code-point lexicographic order. *)
Fixpoint insert_sorted (x : string) (l : list string) : list string :=
  match l with
  | [] => [x]
  | y :: l' => if String.leb x y then x :: l else y :: insert_sorted x l'
  end.

Definition sorted (l : list string) : list string :=
  foldr insert_sorted [] l.

End Py.

Import Py.

(** ** config.py *)

Module EnvConfigProvider.

(** The class has no instance attributes: an instance is a bare object. *)
Inductive t : Type := new.

Definition PROVIDER_MAP : dict string :=
  [ ("openai", "EADLANGCHAIN_AI_OPENAI_API_KEY");
    ("anthropic", "EADLANGCHAIN_AI_ANTHROPIC_API_KEY");
    ("gemini", "EADLANGCHAIN_AI_GEMINI_API_KEY") ].

Definition MODEL_MAP : dict string :=
  [ ("openai", "EADLANGCHAIN_AI_OPENAI_MODEL");
    ("anthropic", "EADLANGCHAIN_AI_ANTHROPIC_MODEL");
    ("gemini", "EADLANGCHAIN_AI_GEMINI_MODEL") ].

Definition get_key (self : t) (environ : gmap string string)
    (provider : string) (required : bool) : result (option string) :=
  let provider := lower provider in
  match dict_get PROVIDER_MAP provider with
  | None =>
      let valid_providers := sorted (dict_keys PROVIDER_MAP) in
      Raise (ValueError
        ("Unknown provider: " +:+ provider +:+ ". " +:+
         "Supported providers: " +:+ String.concat ", " valid_providers))
  | Some env_var =>
      let api_key := environ !! env_var in
      if required && negb (truthy api_key)
      then Raise (ConfigError
        ("API key not found for provider '" +:+ provider +:+ "'. " +:+
         "Please set " +:+ env_var +:+
         " in your .env file or environment variables. " +:+
         "See .env.example for template."))
      else Return api_key
  end.

Definition get_all_keys (self : t) (environ : gmap string string)
  : result (gmap string (option string)) :=
  Return
    (<["gemini" := environ !! "EADLANGCHAIN_AI_GEMINI_API_KEY"]>
     (<["anthropic" := environ !! "EADLANGCHAIN_AI_ANTHROPIC_API_KEY"]>
      (<["openai" := environ !! "EADLANGCHAIN_AI_OPENAI_API_KEY"]> ∅))).

Definition validate (self : t) (environ : gmap string string)
    (provider : string) : result unit :=
  bind (get_key self environ provider true) (fun _ => Return tt).

Definition get_model_name (self : t) (environ : gmap string string)
    (provider : string) : result (option string) :=
  let provider := lower provider in
  match dict_get MODEL_MAP provider with
  | None => Return None
  | Some env_var => Return (environ !! env_var)
  end.

End EnvConfigProvider.

(** Module-level singleton instance for the convenience API. *)
Definition _default_config : EnvConfigProvider.t := EnvConfigProvider.new.

Definition get_api_key (environ : gmap string string)
    (provider : string) (required : bool) : result (option string) :=
  EnvConfigProvider.get_key _default_config environ provider required.

Definition get_all_api_keys (environ : gmap string string)
  : result (gmap string (option string)) :=
  EnvConfigProvider.get_all_keys _default_config environ.

Definition validate_provider (environ : gmap string string)
    (provider : string) : result unit :=
  EnvConfigProvider.validate _default_config environ provider.

Definition get_model_name (environ : gmap string string)
    (provider : string) : result (option string) :=
  EnvConfigProvider.get_model_name _default_config environ provider.

(** ** pathlib: pure POSIX paths *)

Module Path.

(** A parsed path: its root (empty for a relative path, ["/"], or ["//"]
    for exactly two leading slashes) and its components. *)
Record t : Type := mk { root : string; parts : list string }.

(** [s.split(sep)] for a one-character separator. *)
Fixpoint split (sep : ascii) (s : string) : list string :=
  match s with
  | EmptyString => [EmptyString]
  | String c s' =>
      if Ascii.eqb c sep then EmptyString :: split sep s'
      else match split sep s' with
           | [] => [String c EmptyString]
           | p :: ps => String c p :: ps
           end
  end.

(** [posixpath.splitroot]. *)
Definition splitroot (p : string) : string * string :=
  match p with
  | String "/" (String "/" (String "/" _ as rest)) => ("/", String "/" rest)
  | String "/" (String "/" rest) => ("//", rest)
  | String "/" rest => ("/", rest)
  | _ => (EmptyString, p)
  end.

Definition keep_part (x : string) : bool :=
  negb (String.eqb x EmptyString) && negb (String.eqb x ".").

(** [Path(s)]. *)
Definition parse (s : string) : t :=
  let '(r, rel) := splitroot s in
  mk r (List.filter keep_part (split "/" rel)).

(** [str(p)]. *)
Definition to_str (p : t) : string :=
  match root p +:+ String.concat "/" (parts p) with
  | EmptyString => "."
  | s => s
  end.

(** [p / name]. *)
Definition joinpath (p : t) (name : string) : t :=
  let q := parse name in
  match root q with
  | EmptyString => mk (root p) (parts p ++ parts q)
  | _ => q
  end.

Fixpoint proper_prefixes (n : nat) (l : list string) : list (list string) :=
  match n with
  | O => []
  | S k => take k l :: proper_prefixes k l
  end.

(** [list(p.parents)], nearest first. *)
Definition parents (p : t) : list t :=
  map (mk (root p)) (proper_prefixes (length (parts p)) (parts p)).

Fixpoint is_prefix (l1 l2 : list string) : bool :=
  match l1, l2 with
  | [], _ => true
  | x :: l1', y :: l2' => String.eqb x y && is_prefix l1' l2'
  | _ :: _, [] => false
  end.

(** [p.relative_to(other)]: [ValueError] unless [other] is [p] or one
    of its parents.  The text of the message is not modelled. *)
Definition relative_to (p other : t) : result t :=
  if String.eqb (root p) (root other) && is_prefix (parts other) (parts p)
  then Return (mk EmptyString (drop (length (parts other)) (parts p)))
  else Raise (ValueError "path is not in the subpath of other").

End Path.

(** ** The process: environment, working directory, file system *)

Module Os.

(** A regular file is held by the bindings the loader reads from it; one
    that cannot be read as a [.env] file (no permission, bytes that are
    not UTF-8) by the exception that opening or decoding it raises. *)
Inductive node : Type :=
| File (bindings : gmap string string)
| Dir
| Unreadable (e : exn).

Record world : Type := mk {
  environ : gmap string string;
  (** components of the absolute working directory *)
  cwd : list string;
  (** the file system, by path text *)
  fs : gmap string node;
  (** components of the absolute directory that holds [config.py]; this
      is where the loader starts its own search *)
  module_dir : list string
}.

Definition set_environ (w : world) (e : gmap string string) : world :=
  mk e (cwd w) (fs w) (module_dir w).

(** [Path.cwd()]. *)
Definition Path_cwd (w : world) : Path.t := Path.mk "/" (cwd w).

(** [p.exists()]. *)
Definition exists_ (w : world) (p : Path.t) : bool :=
  match fs w !! Path.to_str p with
  | Some _ => true
  | None => false
  end.

(** [os.path.isfile(p)]. *)
Definition isfile (w : world) (p : string) : bool :=
  match fs w !! p with
  | Some (File _) | Some (Unreadable _) => true
  | Some Dir | None => false
  end.

End Os.

(** ** python-dotenv

    The library is not part of the repository; this is its behaviour, as
    of its release 1.1, for the two ways [config.py] calls it. *)

Module Dotenv.

(** [find_dotenv()]: the first [.env] that is a regular file, walking up
    from the directory of the calling module, here [config.py]; the empty
    string when there is none. *)
Fixpoint walk_to_root (w : Os.world) (dirs : list Path.t) : string :=
  match dirs with
  | [] => EmptyString
  | d :: rest =>
      let check_path := Path.to_str (Path.joinpath d ".env") in
      if Os.isfile w check_path then check_path
      else walk_to_root w rest
  end.

Definition find_dotenv (w : Os.world) : string :=
  let path := Path.mk "/" (Os.module_dir w) in
  walk_to_root w (path :: Path.parents path).

(** Loading is switched off when [PYTHON_DOTENV_DISABLED] is set to one
    of these values, in any casing. *)
Definition disabled (w : Os.world) : bool :=
  match Os.environ w !! "PYTHON_DOTENV_DISABLED" with
  | Some value =>
      existsb (String.eqb (lower value)) ["1"; "true"; "t"; "yes"; "y"]
  | None => false
  end.

(** [load_dotenv(dotenv_path)] with [override=False].  When loading is
    switched off nothing happens.  Otherwise, with no path the file is the
    one [find_dotenv] returns; a path that is empty or not a regular file
    loads nothing and is no error; a file that cannot be read raises and
    changes nothing; of a file that can, every binding is added whose
    variable is not set yet, and a variable that is set keeps its value. *)
Definition load_dotenv (dotenv_path : option string) (w : Os.world)
  : result unit * Os.world :=
  if disabled w then (Return tt, w)
  else
    let dotenv_path :=
      match dotenv_path with
      | Some p => p
      | None => find_dotenv w
      end in
    match dotenv_path with
    | EmptyString => (Return tt, w)
    | String _ _ =>
        match Os.fs w !! dotenv_path with
        | Some (Os.File bindings) =>
            (Return tt, Os.set_environ w (Os.environ w ∪ bindings))
        | Some (Os.Unreadable e) => (Raise e, w)
        | Some Os.Dir | None => (Return tt, w)
        end
    end.

End Dotenv.

(** [load_env_config]: the loop over the working directory and its parents,
    with its early return. *)
Fixpoint load_env_config_walk (dirs : list Path.t) (w : Os.world)
  : option (result unit * Os.world) :=
  match dirs with
  | [] => None
  | parent :: rest =>
      let env_path := Path.joinpath parent ".env" in
      if Os.exists_ w env_path
      then Some (Dotenv.load_dotenv (Some (Path.to_str env_path)) w)
      else load_env_config_walk rest w
  end.

Definition load_env_config (env_file : option string) (w : Os.world)
  : result unit * Os.world :=
  if truthy env_file then Dotenv.load_dotenv env_file w
  else
    let current := Os.Path_cwd w in
    match load_env_config_walk (current :: Path.parents current) w with
    | Some r => r
    | None => Dotenv.load_dotenv None w
    end.

(** The directories [load_env_config] visits, in order, and the file it
    looks for in each. *)
Definition search_chain (w : Os.world) : list Path.t :=
  Os.Path_cwd w :: Path.parents (Os.Path_cwd w).

Definition env_path (d : Path.t) : Path.t := Path.joinpath d ".env".

(** A project that keeps a [.env] next to its sources, run from a working
    directory outside the project. *)
Definition outside_project : Os.world :=
  Os.mk ∅ ["tmp"; "work"]
    {[ "/srv/app/.env" := Os.File {[ "EADLANGCHAIN_LOG_LEVEL" := "DEBUG" ]} ]}
    ["srv"; "app"; "src"; "langchain_llm"].

(** The same project run from its [src] directory, with a second [.env]
    one level above the project. *)
Definition inside_project : Os.world :=
  Os.mk ∅ ["srv"; "app"; "src"]
    (<[ "/srv/.env" :=
          Os.File {[ "EADLANGCHAIN_LOG_FILE" := "/var/log/app" ]} ]>
       {[ "/srv/app/.env" :=
            Os.File {[ "EADLANGCHAIN_LOG_LEVEL" := "DEBUG" ]} ]})
    ["srv"; "app"; "src"; "langchain_llm"].

(** ** logging: records and the standard formatter

    The standard library's [logging.LogRecord] and [logging.Formatter], as
    far as [CustomFormatter.format] reaches them.  Records carry no
    exception or stack information, message arguments are strings, and a
    format string is a sequence of literal text and [%(key)s] conversions
    with an optional left-justified width. *)

Module Logging.

Record LogRecord : Type := mkLogRecord {
  name : string;
  levelname : string;
  pathname : string;
  module : string;
  funcName : string;
  lineno : N;
  msg : string;
  args : list string;
  (** [record.created], held as the text [formatTime] renders *)
  created : string;
  (** the other attributes of the record: those assigned after
      construction and any further one it carries *)
  attrs : gmap string string
}.

(** [record.key = v] for an attribute outside the constructor's. *)
Definition setattr (r : LogRecord) (key v : string) : LogRecord :=
  mkLogRecord (name r) (levelname r) (pathname r) (module r) (funcName r)
    (lineno r) (msg r) (args r) (created r) (<[key := v]> (attrs r)).

(** [str(record.__dict__[key])]. *)
Definition lookup (r : LogRecord) (key : string) : option string :=
  if String.eqb key "name" then Some (name r)
  else if String.eqb key "levelname" then Some (levelname r)
  else if String.eqb key "pathname" then Some (pathname r)
  else if String.eqb key "module" then Some (module r)
  else if String.eqb key "funcName" then Some (funcName r)
  else if String.eqb key "lineno" then Some (pretty (lineno r))
  else if String.eqb key "msg" then Some (msg r)
  else attrs r !! key.

(** [fmt % args] for a tuple of strings and the conversions [%s] and
    [%%]; the other conversion characters are outside the fragment. *)
Fixpoint percent (fmt : string) (args : list string) : result string :=
  match fmt with
  | EmptyString =>
      match args with
      | [] => Return EmptyString
      | _ :: _ =>
          Raise (TypeError
            "not all arguments converted during string formatting")
      end
  | String "%" (String "s" rest) =>
      match args with
      | [] => Raise (TypeError "not enough arguments for format string")
      | a :: args' => bind (percent rest args') (fun r => Return (a +:+ r))
      end
  | String "%" (String "%" rest) =>
      bind (percent rest args) (fun r => Return (String "%" r))
  | String "%" EmptyString => Raise (ValueError "incomplete format")
  | String "%" (String _ _) =>
      Raise (ValueError "unsupported format character")
  | String c rest =>
      bind (percent rest args) (fun r => Return (String c r))
  end.

(** [LogRecord.getMessage]. *)
Definition getMessage (r : LogRecord) : result string :=
  match args r with
  | [] => Return (msg r)
  | _ :: _ => percent (msg r) (args r)
  end.

Inductive segment : Type :=
| Lit (text : string)
| Field (key : string) (width : nat).

Fixpoint spaces (n : nat) : string :=
  match n with
  | O => EmptyString
  | S k => String " " (spaces k)
  end.

(** [s.ljust(width)]. *)
Definition ljust (s : string) (width : nat) : string :=
  s +:+ spaces (width - String.length s).

(** [PercentStyle._format]: [fmt % record.__dict__]. *)
Fixpoint style_format (fmt : list segment) (r : LogRecord) : result string :=
  match fmt with
  | [] => Return EmptyString
  | Lit text :: fmt' =>
      bind (style_format fmt' r) (fun s => Return (text +:+ s))
  | Field key width :: fmt' =>
      match lookup r key with
      | None => Raise (KeyError key)
      | Some v =>
          bind (style_format fmt' r) (fun s => Return (ljust v width +:+ s))
      end
  end.

Definition is_KeyError (e : exn) : bool :=
  match e with KeyError _ => true | _ => false end.

Module Formatter.

(** [Formatter.usesTime]. *)
Definition usesTime (fmt : list segment) : bool :=
  existsb (fun s => match s with
                    | Field key _ => String.eqb key "asctime"
                    | Lit _ => false
                    end) fmt.

(** [Formatter.formatMessage]: a [KeyError] of the template becomes a
    [ValueError]. *)
Definition formatMessage (fmt : list segment) (r : LogRecord)
  : result string :=
  try_except (style_format fmt r) is_KeyError
    (fun e =>
       match e with
       | KeyError key =>
           Raise (ValueError
             ("Formatting field not found in record: '" +:+ key +:+ "'"))
       | _ => Raise e
       end).

(** [Formatter.format]. *)
Definition format (fmt : list segment) (record : LogRecord)
  : LogRecord * result string :=
  match getMessage record with
  | Raise e => (record, Raise e)
  | Return message =>
      let record := setattr record "message" message in
      let record :=
        if usesTime fmt then setattr record "asctime" (created record)
        else record in
      (record, formatMessage fmt record)
  end.

End Formatter.

End Logging.

(** ** logging_config.py *)

Module Inspect.

(** The objects a frame's locals can bind, as far as attribute lookup of
    [__class__.__name__] and [__name__] tells them apart: an instance of
    a class, or a class itself. *)
Inductive pyobj : Type :=
| Instance (class_name : string)
| Class (name : string).

(** [o.__class__.__name__]. *)
Definition class_name_of (o : pyobj) : result string :=
  match o with
  | Instance c => Return c
  | Class _ => Return "type"
  end.

(** [o.__name__]. *)
Definition name_of (o : pyobj) : result string :=
  match o with
  | Instance _ => Raise (AttributeError "object has no attribute '__name__'")
  | Class n => Return n
  end.

Record frame : Type := mkframe { f_locals : gmap string pyobj }.

End Inspect.

Module CustomFormatter.

Import Logging Inspect.

Record t : Type := mk {
  fmt : list segment;
  project_root : Path.t
}.

(** The loop of [_find_project_root]. *)
Fixpoint find_marker (w : Os.world) (dirs : list Path.t) : option Path.t :=
  match dirs with
  | [] => None
  | parent :: rest =>
      if Os.exists_ w (Path.joinpath parent "pyproject.toml")
         || Os.exists_ w (Path.joinpath parent ".git")
      then Some parent
      else find_marker w rest
  end.

Definition _find_project_root (w : Os.world) : Path.t :=
  let current := Os.Path_cwd w in
  match find_marker w (current :: Path.parents current) with
  | Some parent => parent
  | None => current
  end.

(** [__init__]. *)
Definition init (w : Os.world) (fmt : list segment)
    (project_root : option Path.t) : t :=
  mk fmt (match project_root with
          | Some p => p
          | None => _find_project_root w
          end).

Definition is_ValueError_or_AttributeError (e : exn) : bool :=
  match e with
  | ValueError _ | AttributeError _ => true
  | _ => false
  end.

(** Every class of [exn] derives from [Exception]. *)
Definition is_Exception (e : exn) : bool := true.

(** The first [try] block of [format]: the record with [relative_path]
    assigned. *)
Definition set_relative_path (self : t) (record : LogRecord)
  : result LogRecord :=
  try_except
    (let file_path := Path.parse (pathname record) in
     bind (Path.relative_to file_path (project_root self))
       (fun relative_path =>
          let s := replace_char "/" "." (Path.to_str relative_path) in
          let s :=
            if endswith s ".py"
            then String.substring 0 (String.length s - 3) s
            else s in
          Return (setattr record "relative_path" s)))
    is_ValueError_or_AttributeError
    (fun _ => Return (setattr record "relative_path" (module record))).

(** The body of the second [try] block: the value [metaclass_name] has
    when the block is left normally.  [stack] is the chain of frames from
    [inspect.currentframe()] along [f_back]; it is empty when
    [currentframe] returns [None]. *)
Definition caller_class (stack : list frame) : result string :=
  match stack with
  | _ :: _ :: caller_frame :: _ =>
      let caller_locals := f_locals caller_frame in
      match caller_locals !! "self" with
      | Some o => class_name_of o
      | None =>
          match caller_locals !! "cls" with
          | Some o => name_of o
          | None => Return EmptyString
          end
      end
  | _ => Return EmptyString
  end.

(** The second [try] block with its [except Exception: pass]. *)
Definition get_metaclass_name (stack : list frame) : result string :=
  try_except (caller_class stack) is_Exception (fun _ => Return EmptyString).

Definition format (self : t) (stack : list frame) (record : LogRecord)
  : LogRecord * result string :=
  match set_relative_path self record with
  | Raise e => (record, Raise e)
  | Return record =>
      match get_metaclass_name stack with
      | Raise e => (record, Raise e)
      | Return metaclass_name =>
          let record :=
            setattr record "metaclass_name"
              (match metaclass_name with
               | EmptyString => EmptyString
               | _ => metaclass_name +:+ "."
               end) in
          Formatter.format (fmt self) record
      end
  end.

End CustomFormatter.

(** The default format string of [setup_logging]. *)
Definition default_format_string : list Logging.segment :=
  [ Logging.Field "levelname" 8; Logging.Lit " ";
    Logging.Field "asctime" 0; Logging.Lit " ";
    Logging.Field "relative_path" 0; Logging.Lit ".";
    Logging.Field "metaclass_name" 0; Logging.Field "funcName" 0;
    Logging.Lit "."; Logging.Field "lineno" 0; Logging.Lit ": ";
    Logging.Field "message" 0 ].

(** A formatter rooted at [/proj], and the record of a call
    [logger.info("%s and %s", "one")] made at line 12 of
    [/proj/src/pkg/mod.py]: the message has two conversions and one
    argument. *)
Definition proj_formatter : CustomFormatter.t :=
  CustomFormatter.mk default_format_string (Path.parse "/proj").

Definition short_of_arguments : Logging.LogRecord :=
  Logging.mkLogRecord "root" "INFO" "/proj/src/pkg/mod.py" "mod" "run" 12
    "%s and %s" ["one"] "2024-01-01 00:00:00" ∅.

Definition plain_record (pathname : string) : Logging.LogRecord :=
  Logging.mkLogRecord "root" "INFO" pathname "mod" "run" 12
    "started" [] "2024-01-01 00:00:00" ∅.

(** A call stack whose third frame, the one [format] inspects, binds
    [name] to [o]. *)
Definition stack_binding (name : string) (o : Inspect.pyobj)
  : list Inspect.frame :=
  [ Inspect.mkframe ∅; Inspect.mkframe ∅;
    Inspect.mkframe {[ name := o ]} ].

(** ** The specification's tables

    Section 6 of the specification fixes the provider identities and the
    variable each one maps to.  They are written down here independently of
    [PROVIDER_MAP] and [MODEL_MAP], so that the theorems below compare the
    code with them. *)

Module Spec.

Definition providers : list string := ["openai"; "anthropic"; "gemini"].

Definition api_key_variable : list (string * string) :=
  [ ("openai", "EADLANGCHAIN_AI_OPENAI_API_KEY");
    ("anthropic", "EADLANGCHAIN_AI_ANTHROPIC_API_KEY");
    ("gemini", "EADLANGCHAIN_AI_GEMINI_API_KEY") ].

Definition model_variable : list (string * string) :=
  [ ("openai", "EADLANGCHAIN_AI_OPENAI_MODEL");
    ("anthropic", "EADLANGCHAIN_AI_ANTHROPIC_MODEL");
    ("gemini", "EADLANGCHAIN_AI_GEMINI_MODEL") ].

End Spec.

(** ** logging: the module namespace and the root logger

    What [setup_logging] reaches of the standard library: the names of
    the [logging] module that [str.upper] can produce, the check of a
    level, and the two handler classes. *)

(** [str.upper] on one code point.  The model is exact on ASCII and keeps
    the other code points; Python maps those to code points outside ASCII,
    or to "SS", so that no string with one of them upper-cases to a name
    of the [logging] module. *)
Definition upper_char (c : ascii) : ascii :=
  let n := N_of_ascii c in
  if (97 <=? n) && (n <=? 122) then ascii_of_N (n - 32) else c.

Fixpoint upper (s : string) : string :=
  match s with
  | EmptyString => EmptyString
  | String c s' => String (upper_char c) (upper s')
  end.

Module Root.

(** The values that the upper-case names of the [logging] module hold:
    the level numbers, the string [BASIC_FORMAT] and the dict [_STYLES]. *)
Inductive attr : Type :=
| Int (n : N)
| Str (s : string)
| Styles.

Definition namespace : dict attr :=
  [ ("CRITICAL", Int 50); ("FATAL", Int 50); ("ERROR", Int 40);
    ("WARNING", Int 30); ("WARN", Int 30); ("INFO", Int 20);
    ("DEBUG", Int 10); ("NOTSET", Int 0);
    ("BASIC_FORMAT", Str "%(levelname)s:%(name)s:%(message)s");
    ("_STYLES", Styles) ].

(** [getattr(logging, name)] for a name without lower-case letters. *)
Definition getattr (name : string) : result attr :=
  match dict_get namespace name with
  | Some a => Return a
  | None =>
      Raise (AttributeError
        ("module 'logging' has no attribute '" +:+ name +:+ "'"))
  end.

Definition _nameToLevel : dict N :=
  [ ("CRITICAL", 50); ("FATAL", 50); ("ERROR", 40); ("WARN", 30);
    ("WARNING", 30); ("INFO", 20); ("DEBUG", 10); ("NOTSET", 0) ].

(** [logging._checkLevel]. *)
Definition _checkLevel (level : attr) : result N :=
  match level with
  | Int n => Return n
  | Str s =>
      match dict_get _nameToLevel s with
      | Some n => Return n
      | None => Raise (ValueError ("Unknown level: '" +:+ s +:+ "'"))
      end
  | Styles => Raise (TypeError "Level not an integer or a valid string")
  end.

(** A handler with the formatter set on it: [StreamHandler()] writes to
    [sys.stderr], [FileHandler(filename)] to the file. *)
Inductive Handler : Type :=
| StreamHandler (formatter : CustomFormatter.t)
| FileHandler (filename : string) (formatter : CustomFormatter.t).

(** The root logger, by its level and its list of handlers. *)
Record Logger : Type := mkLogger {
  level : N;
  handlers : list Handler
}.

End Root.

(** [p.parent]. *)
Definition Path_parent (p : Path.t) : Path.t :=
  Path.mk (Path.root p) (removelast (Path.parts p)).

Section SetupLogging.

(** The parts of the standard library and of the operating system that
    stay outside the model are taken as they come:
    [logging.Formatter.__init__] on a format string, which yields the
    format the formatter keeps or raises [ValueError] for one it finds
    invalid; [mkdir(parents=True, exist_ok=True)]; and the opening of the
    log file by [FileHandler]. *)
Variable Formatter_init :
  list Logging.segment -> result (list Logging.segment).
Variable mkdir_parents : Path.t -> Os.world -> result Os.world.
Variable FileHandler_open : string -> Os.world -> result Os.world.

(** [CustomFormatter(fmt=..., datefmt=...)], with no project root given. *)
Definition CustomFormatter_new (w : Os.world) (fmt : list Logging.segment)
  : result CustomFormatter.t :=
  bind (Formatter_init fmt)
    (fun fmt' =>
       Return (CustomFormatter.mk fmt' (CustomFormatter._find_project_root w))).

(** [setup_logging]: the value returned, the root logger and the world
    after the call. *)
Definition setup_logging (level log_file : option string)
    (format_string : option (list Logging.segment))
    (root_logger : Root.Logger) (w : Os.world)
  : result Root.Logger * Root.Logger * Os.world :=
  let level :=
    match level with
    | Some l => l
    | None => default "INFO" (Os.environ w !! "EADLANGCHAIN_LOG_LEVEL")
    end in
  let log_file :=
    match log_file with
    | Some f => Some f
    | None => Os.environ w !! "EADLANGCHAIN_LOG_FILE"
    end in
  let format_string :=
    match format_string with
    | Some f => f
    | None => default_format_string
    end in
  match CustomFormatter_new w format_string with
  | Raise e => (Raise e, root_logger, w)
  | Return formatter =>
      match bind (Root.getattr (upper level)) Root._checkLevel with
      | Raise e => (Raise e, root_logger, w)
      | Return n =>
          let root_logger := Root.mkLogger n (Root.handlers root_logger) in
          let root_logger := Root.mkLogger n [] in
          let root_logger :=
            Root.mkLogger n
              (Root.handlers root_logger ++ [Root.StreamHandler formatter]) in
          match log_file with
          | Some (String _ _ as log_file) =>
              let log_path := Path.parse log_file in
              match mkdir_parents (Path_parent log_path) w with
              | Raise e => (Raise e, root_logger, w)
              | Return w1 =>
                  match FileHandler_open log_file w1 with
                  | Raise e => (Raise e, root_logger, w1)
                  | Return w2 =>
                      let root_logger :=
                        Root.mkLogger n
                          (Root.handlers root_logger
                             ++ [Root.FileHandler log_file formatter]) in
                      (Return root_logger, root_logger, w2)
                  end
              end
          | _ => (Return root_logger, root_logger, w)
          end
      end
  end.

End SetupLogging.

(** The level and the log file [setup_logging] works with. *)
Definition effective_level (level : option string) (w : Os.world) : string :=
  match level with
  | Some l => l
  | None => default "INFO" (Os.environ w !! "EADLANGCHAIN_LOG_LEVEL")
  end.

Definition effective_log_file (log_file : option string) (w : Os.world)
  : option string :=
  match log_file with
  | Some f => Some f
  | None => Os.environ w !! "EADLANGCHAIN_LOG_FILE"
  end.

(** The level names of the standard library with their numbers. *)
Definition level_names : list (string * N) :=
  [ ("CRITICAL", 50); ("FATAL", 50); ("ERROR", 40); ("WARNING", 30);
    ("WARN", 30); ("INFO", 20); ("DEBUG", 10); ("NOTSET", 0) ].

(** A standard library and an operating system that accept everything. *)
Definition accept_format (fmt : list Logging.segment)
  : result (list Logging.segment) := Return fmt.

Definition accept_path (p : Path.t) (w : Os.world) : result Os.world :=
  Return w.

Definition accept_file (p : string) (w : Os.world) : result Os.world :=
  Return w.

(** The root logger of a fresh interpreter: level [WARNING], no handler. *)
Definition fresh_root : Root.Logger := Root.mkLogger 30 [].

(** ** Vocabulary of the further properties *)

(** A directory that holds one of the two project markers. *)
Definition has_marker (w : Os.world) (d : Path.t) : bool :=
  Os.exists_ w (Path.joinpath d "pyproject.toml")
  || Os.exists_ w (Path.joinpath d ".git").

(** The attributes every record has once [format] has run on it: those of
    the constructor that the model carries, the two derived fields, and
    the ones the standard formatter assigns. *)
Definition known_keys : list string :=
  [ "name"; "levelname"; "pathname"; "module"; "funcName"; "lineno"; "msg";
    "relative_path"; "metaclass_name"; "message"; "asctime" ].

(** The keys a format string refers to. *)
Definition field_keys (fmt : list Logging.segment) : list string :=
  omap (fun seg => match seg with
                   | Logging.Field key _ => Some key
                   | Logging.Lit _ => None
                   end) fmt.

(** The project of [outside_project] with an API key in its [.env], the
    content of the test suite's sample file. *)
Definition keyed_project : Os.world :=
  Os.mk ∅ ["srv"; "app"]
    {[ "/srv/app/.env" :=
         Os.File (<[ "EADLANGCHAIN_LOG_LEVEL" := "DEBUG" ]>
                    {[ "EADLANGCHAIN_AI_OPENAI_API_KEY" :=
                         "test-key-openai" ]}) ]}
    ["srv"; "app"; "src"; "langchain_llm"].

(** A working directory that holds a directory named [.env], below a
    project whose [.env] is a file. *)
Definition env_directory_world : Os.world :=
  Os.mk ∅ ["srv"; "app"; "src"]
    (<[ "/srv/app/src/.env" := Os.Dir ]>
       {[ "/srv/app/.env" :=
            Os.File {[ "EADLANGCHAIN_LOG_LEVEL" := "DEBUG" ]} ]})
    ["srv"; "app"; "src"; "langchain_llm"].

(** The project of [keyed_project] with a [.env] that is not UTF-8
    text. *)
Definition garbled_project : Os.world :=
  Os.mk ∅ ["srv"; "app"]
    {[ "/srv/app/.env" :=
         Os.Unreadable
           (ValueError "'utf-8' codec can't decode byte 0xff") ]}
    ["srv"; "app"; "src"; "langchain_llm"].

(** A checkout with its marker two levels above the working directory. *)
Definition checkout : Os.world :=
  Os.mk ∅ ["srv"; "app"; "src"; "pkg"]
    {[ "/srv/app/pyproject.toml" := Os.File ∅ ]}
    ["srv"; "app"; "src"; "langchain_llm"].

(** * Properties *)

(** ** Strings

    [lower] is idempotent, and [contains] accepts every string that has
    [sub] somewhere inside. *)

Lemma lower_char_idem (c : ascii) : lower_char (lower_char c) = lower_char c.
Proof. destruct c as [[] [] [] [] [] [] [] []]; reflexivity. Qed.

Lemma lower_idem (s : string) : lower (lower s) = lower s.
Proof.
  induction s as [|c s IH]; simpl; [reflexivity|].
  now rewrite lower_char_idem, IH.
Qed.

Lemma prefix_append (s t : string) : String.prefix s (s +:+ t) = true.
Proof.
  induction s as [|c s IH]; simpl.
  - now destruct t.
  - destruct (ascii_dec c c) as [_|Hne]; [exact IH | now destruct Hne].
Qed.

Lemma contains_prefix (sub s : string) :
  String.prefix sub s = true -> contains sub s = true.
Proof. intros H. destruct s; simpl in *; rewrite H; reflexivity. Qed.

Lemma contains_tail (sub : string) (c : ascii) (s : string) :
  contains sub s = true -> contains sub (String c s) = true.
Proof. intros H. cbn [contains]. rewrite H. apply orb_true_r. Qed.

Lemma contains_append (pre sub post : string) :
  contains sub (pre +:+ sub +:+ post) = true.
Proof.
  induction pre as [|c pre IH].
  - change (EmptyString +:+ sub +:+ post) with (sub +:+ post).
    apply contains_prefix, prefix_append.
  - change (String c pre +:+ sub +:+ post)
      with (String c (pre +:+ sub +:+ post)).
    apply contains_tail, IH.
Qed.

(** ** Lookups in the two tables of the class *)

Lemma elem_of_providers (x : string) :
  x ∈ Spec.providers <-> x = "openai" \/ x = "anthropic" \/ x = "gemini".
Proof.
  unfold Spec.providers. rewrite !elem_of_cons, elem_of_nil. tauto.
Qed.

Lemma PROVIDER_MAP_spec (name var : string) :
  (name, var) ∈ Spec.api_key_variable ->
  dict_get EnvConfigProvider.PROVIDER_MAP name = Some var.
Proof.
  unfold Spec.api_key_variable. rewrite !elem_of_cons, elem_of_nil.
  intros [H|[H|[H|[]]]]; injection H as -> ->; reflexivity.
Qed.

Lemma MODEL_MAP_spec (name var : string) :
  (name, var) ∈ Spec.model_variable ->
  dict_get EnvConfigProvider.MODEL_MAP name = Some var.
Proof.
  unfold Spec.model_variable. rewrite !elem_of_cons, elem_of_nil.
  intros [H|[H|[H|[]]]]; injection H as -> ->; reflexivity.
Qed.

Lemma PROVIDER_MAP_unknown (x : string) :
  x ∉ Spec.providers -> dict_get EnvConfigProvider.PROVIDER_MAP x = None.
Proof.
  rewrite elem_of_providers. intros H.
  unfold EnvConfigProvider.PROVIDER_MAP. cbn [dict_get].
  repeat match goal with
         | |- context [String.eqb ?a x] =>
             destruct (String.eqb_spec a x) as [<-|_]; [exfalso; tauto|]
         end.
  reflexivity.
Qed.

Lemma MODEL_MAP_unknown (x : string) :
  x ∉ Spec.providers -> dict_get EnvConfigProvider.MODEL_MAP x = None.
Proof.
  rewrite elem_of_providers. intros H.
  unfold EnvConfigProvider.MODEL_MAP. cbn [dict_get].
  repeat match goal with
         | |- context [String.eqb ?a x] =>
             destruct (String.eqb_spec a x) as [<-|_]; [exfalso; tauto|]
         end.
  reflexivity.
Qed.

Lemma api_key_variable_names (name var : string) :
  (name, var) ∈ Spec.api_key_variable ->
  contains var
    ("API key not found for provider '" +:+ name +:+ "'. " +:+
     "Please set " +:+ var +:+
     " in your .env file or environment variables. " +:+
     "See .env.example for template.") = true.
Proof.
  unfold Spec.api_key_variable. rewrite !elem_of_cons, elem_of_nil.
  intros [H|[H|[H|[]]]]; injection H as -> ->; vm_compute; reflexivity.
Qed.

(** ** The configuration provider *)

Section ConfigProvider.

Variable self : EnvConfigProvider.t.
Variable environ : gmap string string.

Lemma get_key_known (s name var : string) (required : bool) :
  (name, var) ∈ Spec.api_key_variable ->
  lower s = name ->
  EnvConfigProvider.get_key self environ s required =
  if required && negb (truthy (environ !! var))
  then Raise (ConfigError
    ("API key not found for provider '" +:+ name +:+ "'. " +:+
     "Please set " +:+ var +:+
     " in your .env file or environment variables. " +:+
     "See .env.example for template."))
  else Return (environ !! var).
Proof.
  intros Hin Hs. unfold EnvConfigProvider.get_key. rewrite Hs.
  now rewrite (PROVIDER_MAP_spec _ _ Hin).
Qed.

Lemma get_key_unknown (s : string) (required : bool) :
  lower s ∉ Spec.providers ->
  EnvConfigProvider.get_key self environ s required =
  Raise (ValueError
    ("Unknown provider: " +:+ lower s +:+ ". " +:+
     "Supported providers: anthropic, gemini, openai")).
Proof.
  intros Hs. unfold EnvConfigProvider.get_key.
  now rewrite (PROVIDER_MAP_unknown _ Hs).
Qed.

Lemma truthy_false (o : option string) :
  truthy o = false <-> o = None \/ o = Some EmptyString.
Proof.
  destruct o as [[|c s]|]; cbn; split; intros H; try tauto; try discriminate.
  - destruct H as [H|H]; discriminate.
Qed.

(** C2. For a recognized provider identity in any casing, [get_key]
    raises [ConfigError] exactly when [required] is true and the mapped
    variable is unset or empty; whatever it raises is a [ConfigError]
    whose message contains "API key not found" and the name of the mapped
    variable; with [required] false and the variable unset it returns
    [None]. *)
Theorem get_key_missing_required (s name var : string) (required : bool) :
  (name, var) ∈ Spec.api_key_variable ->
  lower s = name ->
  ((exists msg,
       EnvConfigProvider.get_key self environ s required =
         Raise (ConfigError msg))
     <-> required = true /\
         (environ !! var = None \/ environ !! var = Some EmptyString))
  /\ (forall e, EnvConfigProvider.get_key self environ s required = Raise e ->
        exists msg, e = ConfigError msg
          /\ contains "API key not found" msg = true
          /\ contains var msg = true)
  /\ (required = false -> environ !! var = None ->
        EnvConfigProvider.get_key self environ s required = Return None).
Proof.
  intros Hin Hs. rewrite (get_key_known s name var required Hin Hs).
  pose proof (truthy_false (environ !! var)) as Ht.
  destruct required, (truthy (environ !! var)) eqn:E; cbn [andb negb].
  - split; [|split].
    + split; [intros [msg H]; discriminate|].
      intros [_ H]. apply Ht in H. discriminate.
    + intros e H. discriminate.
    + intros H. discriminate.
  - split; [|split].
    + split; [intros _; split; [reflexivity | now apply Ht] | eauto].
    + intros e [= <-]. eexists. split; [reflexivity|]. split.
      * reflexivity.
      * now apply api_key_variable_names.
    + intros H. discriminate.
  - split; [|split].
    + split; [intros [msg H]; discriminate | intros [H _]; discriminate].
    + intros e H. discriminate.
    + intros _ H. now rewrite H.
  - split; [|split].
    + split; [intros [msg H]; discriminate | intros [H _]; discriminate].
    + intros e H. discriminate.
    + intros _ H. now rewrite H.
Qed.

(** C3. For a provider string whose lower-cased form is none of the three
    identities, [get_key] raises an error whose message contains
    "Unknown provider", for both values of [required] and whatever the
    environment holds. *)
Theorem get_key_unknown_provider (s : string) (required : bool) :
  lower s ∉ Spec.providers ->
  exists msg,
    EnvConfigProvider.get_key self environ s required = Raise (ValueError msg)
    /\ contains "Unknown provider" msg = true.
Proof.
  intros Hs. rewrite (get_key_unknown s required Hs).
  eexists. split; [reflexivity|]. reflexivity.
Qed.

(** C4. For each recognized identity, when the mapped variable holds a
    non-empty value [v], [get_key] returns exactly [v]; and [get_key] on
    any string behaves as on its lower-cased form. *)
Theorem get_key_value_any_casing (s name var v : string) (required : bool) :
  (name, var) ∈ Spec.api_key_variable ->
  lower s = name ->
  environ !! var = Some v ->
  v <> EmptyString ->
  EnvConfigProvider.get_key self environ s required = Return (Some v)
  /\ (forall (s' : string) (r : bool),
        EnvConfigProvider.get_key self environ s' r =
        EnvConfigProvider.get_key self environ (lower s') r).
Proof.
  intros Hin Hs Hv Hne. split.
  - rewrite (get_key_known s name var required Hin Hs), Hv.
    destruct v as [|c v]; [now destruct Hne|].
    cbn. now rewrite andb_false_r.
  - intros s' r. unfold EnvConfigProvider.get_key. now rewrite lower_idem.
Qed.

(** C5, as amended. For a provider identity outside the fixed set,
    [get_key] and [validate] raise the unknown-provider error, while
    [get_model_name] returns [None] without raising. *)
Theorem unknown_provider_lookups (s : string) :
  lower s ∉ Spec.providers ->
  (forall required, exists msg,
      EnvConfigProvider.get_key self environ s required =
        Raise (ValueError msg))
  /\ (exists msg,
        EnvConfigProvider.validate self environ s = Raise (ValueError msg))
  /\ EnvConfigProvider.get_model_name self environ s = Return None.
Proof.
  intros Hs. split; [|split].
  - intros required. rewrite (get_key_unknown s required Hs). eauto.
  - unfold EnvConfigProvider.validate. rewrite (get_key_unknown s true Hs).
    cbn. eauto.
  - unfold EnvConfigProvider.get_model_name.
    now rewrite (MODEL_MAP_unknown _ Hs).
Qed.

(** C6. [get_model_name] lower-cases its argument as [get_key] does; for
    a recognized provider it returns the value of the mapped model
    variable, [None] when unset; for an unrecognized provider it returns
    [None] without raising, where [get_key] raises. *)
Theorem get_model_name_lenient (s : string) :
  EnvConfigProvider.get_model_name self environ s =
    EnvConfigProvider.get_model_name self environ (lower s)
  /\ (forall name var,
        (name, var) ∈ Spec.model_variable -> lower s = name ->
        EnvConfigProvider.get_model_name self environ s =
          Return (environ !! var))
  /\ (lower s ∉ Spec.providers ->
        EnvConfigProvider.get_model_name self environ s = Return None
        /\ forall required,
             raises (EnvConfigProvider.get_key self environ s required)).
Proof.
  split; [|split].
  - unfold EnvConfigProvider.get_model_name. now rewrite lower_idem.
  - intros name var Hin Hs. unfold EnvConfigProvider.get_model_name.
    rewrite Hs. now rewrite (MODEL_MAP_spec _ _ Hin).
  - intros Hs. split.
    + unfold EnvConfigProvider.get_model_name.
      now rewrite (MODEL_MAP_unknown _ Hs).
    + intros required. rewrite (get_key_unknown s required Hs).
      unfold raises. eauto.
Qed.

(** C8. In every environment [get_all_keys] returns, without raising, a
    mapping whose key set is exactly the three identities; each value is
    what the corresponding API-key variable holds, or [None]. *)
Theorem get_all_keys_total :
  exists d : gmap string (option string),
    EnvConfigProvider.get_all_keys self environ = Return d
    /\ dom d = list_to_set Spec.providers
    /\ (forall name var, (name, var) ∈ Spec.api_key_variable ->
          d !! name = Some (environ !! var)).
Proof.
  eexists. split; [reflexivity|]. split.
  - rewrite !dom_insert_L, dom_empty_L. cbn. set_solver.
  - intros name var. unfold Spec.api_key_variable.
    rewrite !elem_of_cons, elem_of_nil.
    intros [H|[H|[H|[]]]]; injection H as -> ->; now simplify_map_eq.
Qed.

(** C9. [validate] raises exactly when [get_key] with [required] true
    raises, and the same error; when [get_key] returns, [validate]
    returns [None] (the unit value). *)
Theorem validate_as_get_key (s : string) :
  (forall e, EnvConfigProvider.validate self environ s = Raise e
             <-> EnvConfigProvider.get_key self environ s true = Raise e)
  /\ (EnvConfigProvider.validate self environ s = Return tt
      <-> exists v, EnvConfigProvider.get_key self environ s true = Return v).
Proof.
  unfold EnvConfigProvider.validate.
  destruct (EnvConfigProvider.get_key self environ s true) as [v|e0];
    cbn; split.
  - intros e. split; intros H; discriminate.
  - split; eauto.
  - intros e. split; intros [= <-]; reflexivity.
  - split; [intros H; discriminate | intros [v H]; discriminate].
Qed.

(** C10. Each module-level convenience function agrees with the method
    of [EnvConfigProvider] it delegates to, on every instance, argument
    and environment. *)
Theorem convenience_functions_delegate :
  (forall s required,
      get_api_key environ s required =
      EnvConfigProvider.get_key self environ s required)
  /\ get_all_api_keys environ = EnvConfigProvider.get_all_keys self environ
  /\ (forall s, validate_provider environ s =
                EnvConfigProvider.validate self environ s)
  /\ (forall s, get_model_name environ s =
                EnvConfigProvider.get_model_name self environ s).
Proof.
  destruct self. repeat split.
Qed.

End ConfigProvider.

(** The invariant of section 3 read over all three lookups fails:
    [get_model_name] answers an unknown identity with [None]. *)
Lemma unknown_provider_not_always_failure :
  ~ (forall (self : EnvConfigProvider.t) (environ : gmap string string)
            (s : string),
        lower s ∉ Spec.providers ->
        (forall required,
            raises (EnvConfigProvider.get_key self environ s required))
        /\ raises (EnvConfigProvider.validate self environ s)
        /\ raises (EnvConfigProvider.get_model_name self environ s)).
Proof.
  intros H.
  destruct (H EnvConfigProvider.new ∅ "not-a-provider") as (_ & _ & [e He]).
  - rewrite elem_of_providers. intros [E|[E|E]]; discriminate E.
  - discriminate He.
Qed.

Lemma openai_in_table :
  ("openai", "EADLANGCHAIN_AI_OPENAI_API_KEY") ∈ Spec.api_key_variable.
Proof. apply list_elem_of_here. Qed.

Lemma not_a_provider_unknown : lower "Not-A-Provider" ∉ Spec.providers.
Proof. rewrite elem_of_providers. intros [E|[E|E]]; discriminate E. Qed.

Lemma get_key_missing_required_witness :
  exists msg,
    EnvConfigProvider.get_key EnvConfigProvider.new ∅ "OpenAI" true =
      Raise (ConfigError msg).
Proof.
  apply (proj1 (get_key_missing_required EnvConfigProvider.new ∅
                  "OpenAI" "openai" "EADLANGCHAIN_AI_OPENAI_API_KEY" true
                  openai_in_table eq_refl)).
  split; [reflexivity | left; reflexivity].
Defined.

Lemma get_key_unknown_provider_witness :
  exists msg,
    EnvConfigProvider.get_key EnvConfigProvider.new ∅ "Not-A-Provider" false =
      Raise (ValueError msg)
    /\ contains "Unknown provider" msg = true.
Proof.
  apply (get_key_unknown_provider EnvConfigProvider.new ∅
           "Not-A-Provider" false not_a_provider_unknown).
Defined.

Lemma get_key_value_any_casing_witness :
  EnvConfigProvider.get_key EnvConfigProvider.new
    {[ "EADLANGCHAIN_AI_OPENAI_API_KEY" := "sk-test" ]} "OPENAI" true =
  Return (Some "sk-test").
Proof.
  refine (proj1 (get_key_value_any_casing EnvConfigProvider.new
                   {[ "EADLANGCHAIN_AI_OPENAI_API_KEY" := "sk-test" ]}
                   "OPENAI" "openai" "EADLANGCHAIN_AI_OPENAI_API_KEY"
                   "sk-test" true openai_in_table eq_refl _ _)).
  - reflexivity.
  - discriminate.
Defined.

Lemma get_model_name_lenient_witness :
  EnvConfigProvider.get_model_name EnvConfigProvider.new
    {[ "EADLANGCHAIN_AI_GEMINI_MODEL" := "gemini-pro" ]} "Gemini" =
  Return (Some "gemini-pro").
Proof.
  refine (proj1 (proj2 (get_model_name_lenient EnvConfigProvider.new
                          {[ "EADLANGCHAIN_AI_GEMINI_MODEL" := "gemini-pro" ]}
                          "Gemini"))
            "gemini" "EADLANGCHAIN_AI_GEMINI_MODEL" _ eq_refl).
  unfold Spec.model_variable. rewrite !elem_of_cons. tauto.
Defined.

Lemma unknown_provider_lookups_witness :
  EnvConfigProvider.get_model_name EnvConfigProvider.new ∅ "Not-A-Provider" =
  Return None.
Proof.
  apply (unknown_provider_lookups EnvConfigProvider.new ∅
           "Not-A-Provider" not_a_provider_unknown).
Defined.

(** ** Examples: the configuration provider on concrete inputs *)

Example get_key_openai_unset :
  EnvConfigProvider.get_key EnvConfigProvider.new ∅ "OpenAI" true =
  Raise (ConfigError
    "API key not found for provider 'openai'. Please set EADLANGCHAIN_AI_OPENAI_API_KEY in your .env file or environment variables. See .env.example for template.").
Proof. reflexivity. Qed.

Example get_key_not_a_provider :
  EnvConfigProvider.get_key EnvConfigProvider.new ∅ "Not-A-Provider" false =
  Raise (ValueError
    "Unknown provider: not-a-provider. Supported providers: anthropic, gemini, openai").
Proof. reflexivity. Qed.

Example get_key_empty_not_required :
  EnvConfigProvider.get_key EnvConfigProvider.new
    {[ "EADLANGCHAIN_AI_GEMINI_API_KEY" := EmptyString ]} "gemini" false =
  Return (Some EmptyString).
Proof. reflexivity. Qed.

Example get_model_name_set :
  get_model_name {[ "EADLANGCHAIN_AI_OPENAI_MODEL" := "gpt-4o" ]} "OpenAI" =
  Return (Some "gpt-4o").
Proof. reflexivity. Qed.

(** ** Loading a [.env] file *)

Section LoadEnvConfig.

Variable w : Os.world.

Lemma walk_first_match (before after : list Path.t) (d : Path.t) :
  (forall d', d' ∈ before -> Os.exists_ w (env_path d') = false) ->
  Os.exists_ w (env_path d) = true ->
  load_env_config_walk (before ++ d :: after) w =
  Some (Dotenv.load_dotenv (Some (Path.to_str (env_path d))) w).
Proof.
  unfold env_path. intros Hbefore Hd.
  induction before as [|b before IH]; cbn [app load_env_config_walk].
  - now rewrite Hd.
  - rewrite (Hbefore b) by apply list_elem_of_here.
    apply IH. intros d' Hd'. apply Hbefore. now apply list_elem_of_further.
Qed.

Lemma walk_no_match (dirs : list Path.t) :
  (forall d, d ∈ dirs -> Os.exists_ w (env_path d) = false) ->
  load_env_config_walk dirs w = None.
Proof.
  unfold env_path.
  induction dirs as [|d dirs IH]; intros H; cbn [load_env_config_walk];
    [reflexivity|].
  rewrite (H d) by apply list_elem_of_here.
  apply IH. intros d' Hd'. apply H. now apply list_elem_of_further.
Qed.

Lemma walk_to_root_none (dirs : list Path.t) :
  (forall d, d ∈ dirs -> Os.isfile w (Path.to_str (env_path d)) = false) ->
  Dotenv.walk_to_root w dirs = EmptyString.
Proof.
  unfold env_path.
  induction dirs as [|d dirs IH]; intros H; cbn [Dotenv.walk_to_root];
    [reflexivity|].
  rewrite (H d) by apply list_elem_of_here.
  apply IH. intros d' Hd'. apply H. now apply list_elem_of_further.
Qed.

(** C7, as amended. With an explicit non-empty path [load_env_config]
    hands that file to the loader and nothing else.  With no argument it
    visits the working directory and then its ancestors in order and hands
    the [.env] of the first directory that has one to the loader, without
    looking further.  When none has one it calls the loader without a
    path; the call then completes without raising and leaves the
    environment as it was provided no [.env] file lies between the
    directory of [config.py] and the root either.  Unless
    [PYTHON_DOTENV_DISABLED] is set, a readable file handed to the loader
    adds its bindings for the variables that are not yet set; a path that
    is no regular file loads nothing. *)
Theorem load_env_config_first_match :
  (forall p, p <> EmptyString ->
      load_env_config (Some p) w = Dotenv.load_dotenv (Some p) w)
  /\ (forall before d after,
        search_chain w = before ++ d :: after ->
        (forall d', d' ∈ before -> Os.exists_ w (env_path d') = false) ->
        Os.exists_ w (env_path d) = true ->
        load_env_config None w =
          Dotenv.load_dotenv (Some (Path.to_str (env_path d))) w)
  /\ ((forall d, d ∈ search_chain w -> Os.exists_ w (env_path d) = false) ->
        load_env_config None w = Dotenv.load_dotenv None w
        /\ ((forall d, d ∈ Path.mk "/" (Os.module_dir w)
                         :: Path.parents (Path.mk "/" (Os.module_dir w)) ->
               Os.isfile w (Path.to_str (env_path d)) = false) ->
            load_env_config None w = (Return tt, w)))
  /\ (forall p bindings,
        p <> EmptyString ->
        Os.environ w !! "PYTHON_DOTENV_DISABLED" = None ->
        Os.fs w !! p = Some (Os.File bindings) ->
        Dotenv.load_dotenv (Some p) w =
        (Return tt, Os.set_environ w (Os.environ w ∪ bindings)))
  /\ (forall p,
        Os.isfile w p = false ->
        Dotenv.load_dotenv (Some p) w = (Return tt, w)).
Proof.
  split; [|split; [|split; [|split]]].
  - intros [|c p] Hp; [now destruct Hp | reflexivity].
  - intros before d after Hchain Hbefore Hd.
    unfold load_env_config. cbn [truthy]. fold (search_chain w).
    now rewrite Hchain, (walk_first_match before after d Hbefore Hd).
  - intros Hnone.
    assert (load_env_config None w = Dotenv.load_dotenv None w) as Hfall.
    { unfold load_env_config. cbn [truthy]. fold (search_chain w).
      now rewrite (walk_no_match _ Hnone). }
    split; [exact Hfall|].
    intros Hmod. rewrite Hfall. unfold Dotenv.load_dotenv, Dotenv.find_dotenv.
    rewrite (walk_to_root_none _ Hmod). now destruct (Dotenv.disabled w).
  - intros [|c p] bindings Hp Hon Hfile; [now destruct Hp|].
    unfold Dotenv.load_dotenv, Dotenv.disabled. now rewrite Hon, Hfile.
  - intros p Hp. unfold Dotenv.load_dotenv.
    destruct (Dotenv.disabled w); [reflexivity|].
    destruct p as [|c p]; [reflexivity|].
    unfold Os.isfile in Hp.
    now destruct (Os.fs w !! String c p) as [[b| |e]|].
Qed.

End LoadEnvConfig.

Lemma load_env_config_first_match_witness :
  load_env_config None inside_project =
  Dotenv.load_dotenv (Some "/srv/app/.env") inside_project.
Proof.
  refine (proj1 (proj2 (load_env_config_first_match inside_project))
            [Path.mk "/" ["srv"; "app"; "src"]]
            (Path.mk "/" ["srv"; "app"])
            [Path.mk "/" ["srv"]; Path.mk "/" []] eq_refl _ eq_refl).
  intros d' Hd'. apply list_elem_of_singleton in Hd' as ->. reflexivity.
Defined.

Example load_env_config_no_merge :
  Os.environ (load_env_config None inside_project).2 =
  {[ "EADLANGCHAIN_LOG_LEVEL" := "DEBUG" ]}.
Proof. vm_compute. reflexivity. Qed.

(** No [.env] between the working directory and the root does not keep the
    environment as it was: the fallback call of the loader finds the
    project's own file. *)
Lemma load_env_config_fallback_loads :
  ~ (forall w : Os.world,
        (forall d, d ∈ search_chain w -> Os.exists_ w (env_path d) = false) ->
        exists w',
          load_env_config None w = (Return tt, w')
          /\ Os.environ w' = Os.environ w).
Proof.
  intros H. destruct (H outside_project) as (w' & Hrun & Henv).
  - intros d Hd. unfold search_chain in Hd. cbn in Hd.
    rewrite !elem_of_cons, elem_of_nil in Hd.
    destruct Hd as [->|[->|[->|[]]]]; reflexivity.
  - assert (Os.environ (load_env_config None outside_project).2
              !! "EADLANGCHAIN_LOG_LEVEL" = Some "DEBUG") as Hset
      by (vm_compute; reflexivity).
    rewrite Hrun in Hset. cbn [snd] in Hset. rewrite Henv in Hset.
    discriminate Hset.
Qed.

Example load_env_config_explicit :
  Os.environ
    (load_env_config (Some "/srv/app/.env") outside_project).2
    !! "EADLANGCHAIN_LOG_LEVEL" = Some "DEBUG".
Proof. vm_compute. reflexivity. Qed.

(** ** The log formatter *)

Section Format.

Import Logging Inspect.

Variable self : CustomFormatter.t.

Lemma relative_to_raises_ValueError (p other : Path.t) (e : exn) :
  Path.relative_to p other = Raise e -> exists msg, e = ValueError msg.
Proof.
  unfold Path.relative_to. destruct (_ && _); [discriminate|].
  intros [= <-]. eauto.
Qed.

(** The first [try] block always leaves the record with a relative
    path, which is the module name when [relative_to] raised. *)
Lemma set_relative_path_returns (record : LogRecord) :
  exists rel,
    CustomFormatter.set_relative_path self record =
      Return (setattr record "relative_path" rel)
    /\ (raises (Path.relative_to (Path.parse (pathname record))
                  (CustomFormatter.project_root self)) ->
        rel = module record).
Proof.
  unfold CustomFormatter.set_relative_path.
  destruct (Path.relative_to _ _) as [rel|e] eqn:E; cbn [bind try_except].
  - eexists. split; [reflexivity|]. intros [e He]. discriminate He.
  - destruct (relative_to_raises_ValueError _ _ _ E) as [msg ->].
    cbn. eauto.
Qed.

(** The second [try] block always yields a name, the empty one when the
    introspection raised. *)
Lemma get_metaclass_name_returns (stack : list frame) :
  exists meta,
    CustomFormatter.get_metaclass_name stack = Return meta
    /\ (raises (CustomFormatter.caller_class stack) -> meta = EmptyString).
Proof.
  unfold CustomFormatter.get_metaclass_name.
  destruct (CustomFormatter.caller_class stack) as [meta|e]; cbn.
  - exists meta. split; [reflexivity|]. intros [e He]. discriminate He.
  - eauto.
Qed.

(** C1, as amended. Computing the two derived fields never raises: the
    relative path falls back to the record's module name when the source
    path cannot be made relative to the project root, and the enclosing
    type name is empty when the introspection of the call stack fails.
    [format] then returns whatever the standard formatter returns on the
    record carrying the two fields, so it raises only when the standard
    formatter does. *)
Theorem format_derived_fields_never_raise
    (stack : list frame) (record : LogRecord) :
  exists rel meta,
    CustomFormatter.set_relative_path self record =
      Return (setattr record "relative_path" rel)
    /\ CustomFormatter.get_metaclass_name stack = Return meta
    /\ (raises (Path.relative_to (Path.parse (pathname record))
                  (CustomFormatter.project_root self)) ->
        rel = module record)
    /\ (raises (CustomFormatter.caller_class stack) -> meta = EmptyString)
    /\ CustomFormatter.format self stack record =
       Formatter.format (CustomFormatter.fmt self)
         (setattr (setattr record "relative_path" rel) "metaclass_name"
            match meta with
            | EmptyString => EmptyString
            | String _ _ => meta +:+ "."
            end).
Proof.
  destruct (set_relative_path_returns record) as (rel & Hrel & Hfall).
  destruct (get_metaclass_name_returns stack) as (meta & Hmeta & Hempty).
  exists rel, meta. repeat split; try assumption.
  unfold CustomFormatter.format. rewrite Hrel, Hmeta.
  now destruct meta.
Qed.

End Format.

Lemma format_derived_fields_never_raise_witness :
  CustomFormatter.set_relative_path proj_formatter
    (plain_record "/elsewhere/mod.py") =
  Return (Logging.setattr (plain_record "/elsewhere/mod.py")
            "relative_path" "mod").
Proof.
  destruct (format_derived_fields_never_raise proj_formatter []
              (plain_record "/elsewhere/mod.py"))
    as (rel & meta & Hrel & _ & Hfall & _).
  rewrite Hrel, Hfall; [reflexivity|].
  eexists. vm_compute. reflexivity.
Defined.

(** [format] does raise: the standard formatter rejects a record whose
    message has more conversions than arguments, and nothing in [format]
    stops that error. *)
Lemma format_raises_on_short_arguments :
  ~ (forall (self : CustomFormatter.t) (stack : list Inspect.frame)
            (record : Logging.LogRecord),
        exists s, (CustomFormatter.format self stack record).2 = Return s).
Proof.
  intros H. destruct (H proj_formatter [] short_of_arguments) as [s Hs].
  vm_compute in Hs. discriminate Hs.
Qed.

(** ** Examples: the formatter on concrete inputs *)

Example format_in_method :
  (CustomFormatter.format proj_formatter
     (stack_binding "self" (Inspect.Instance "Worker"))
     (plain_record "/proj/src/pkg/mod.py")).2 =
  Return "INFO     2024-01-01 00:00:00 src.pkg.mod.Worker.run.12: started".
Proof. vm_compute. reflexivity. Qed.

Example format_outside_root :
  (CustomFormatter.format proj_formatter []
     (plain_record "/elsewhere/mod.py")).2 =
  Return "INFO     2024-01-01 00:00:00 mod.run.12: started".
Proof. vm_compute. reflexivity. Qed.

Example format_cls_without_name :
  (CustomFormatter.format proj_formatter
     (stack_binding "cls" (Inspect.Instance "Worker"))
     (plain_record "/proj/src/pkg/mod.py")).2 =
  Return "INFO     2024-01-01 00:00:00 src.pkg.mod.run.12: started".
Proof. vm_compute. reflexivity. Qed.

Example format_short_of_arguments :
  (CustomFormatter.format proj_formatter [] short_of_arguments).2 =
  Raise (TypeError "not enough arguments for format string").
Proof. vm_compute. reflexivity. Qed.

(** * Further properties of the configuration provider *)

Section ConfigProviderUse.

Variable self : EnvConfigProvider.t.
Variable environ : gmap string string.

Lemma truthy_true (o : option string) :
  truthy o = true <-> exists k, o = Some k /\ k <> EmptyString.
Proof.
  destruct o as [[|c k]|]; cbn; split; try discriminate.
  - intros (k & [= <-] & Hk). now destruct Hk.
  - intros _. eexists. split; [reflexivity | discriminate].
  - reflexivity.
  - intros (k & H & _). discriminate H.
Qed.

(** What [get_key] answers, by cases on the table. *)
Lemma get_key_cases (s : string) (required : bool) :
  ((lower s ∉ Spec.providers)
   /\ exists msg,
        EnvConfigProvider.get_key self environ s required =
          Raise (ValueError msg))
  \/ (exists var,
        (lower s, var) ∈ Spec.api_key_variable
        /\ EnvConfigProvider.get_key self environ s required =
           if required && negb (truthy (environ !! var))
           then Raise (ConfigError
             ("API key not found for provider '" +:+ lower s +:+ "'. " +:+
              "Please set " +:+ var +:+
              " in your .env file or environment variables. " +:+
              "See .env.example for template."))
           else Return (environ !! var)).
Proof.
  destruct (decide (lower s ∈ Spec.providers)) as [Hin|Hout].
  - right. apply elem_of_providers in Hin.
    assert (exists var, (lower s, var) ∈ Spec.api_key_variable) as [var Hvar].
    { unfold Spec.api_key_variable.
      destruct Hin as [-> | [-> | ->]]; eexists; rewrite !elem_of_cons;
        eauto. }
    exists var. split; [exact Hvar|].
    exact (get_key_known self environ s (lower s) var required Hvar eq_refl).
  - left. split; [exact Hout|].
    rewrite (get_key_unknown self environ s required Hout). eauto.
Qed.

(** X1. A key obtained with [required] true is never absent and never
    the empty string. *)
Theorem get_key_required_nonempty (s : string) (v : option string) :
  EnvConfigProvider.get_key self environ s true = Return v ->
  exists k, v = Some k /\ k <> EmptyString.
Proof.
  destruct (get_key_cases s true) as [(_ & msg & E)|(var & _ & E)];
    rewrite E; clear E.
  - discriminate.
  - cbn [andb]. destruct (truthy (environ !! var)) eqn:E; cbn [negb].
    + intros [= <-]. now apply truthy_true.
    + discriminate.
Qed.

(** X2. [get_key] looks at no variable but the one its provider maps to:
    two environments that agree on it give the same answer. *)
Theorem get_key_reads_mapped_variable
    (environ' : gmap string string) (s name var : string) (required : bool) :
  (name, var) ∈ Spec.api_key_variable ->
  lower s = name ->
  environ !! var = environ' !! var ->
  EnvConfigProvider.get_key self environ s required =
  EnvConfigProvider.get_key self environ' s required.
Proof.
  intros Hin Hs Hsame.
  rewrite (get_key_known self environ s name var required Hin Hs).
  rewrite (get_key_known self environ' s name var required Hin Hs).
  now rewrite Hsame.
Qed.

(** X3. [get_all_keys] and [get_key] agree although they name the
    variables separately: the entry of a provider in the mapping is what
    [get_key] returns for it with [required] false, and a provider without
    an entry is one [get_key] rejects. *)
Theorem get_all_keys_agrees_with_get_key (s : string) :
  exists d : gmap string (option string),
    EnvConfigProvider.get_all_keys self environ = Return d
    /\ match d !! lower s with
       | Some v =>
           EnvConfigProvider.get_key self environ s false = Return v
       | None =>
           exists msg,
             EnvConfigProvider.get_key self environ s false =
               Raise (ValueError msg)
       end.
Proof.
  eexists. split; [reflexivity|].
  destruct (get_key_cases s false) as [(Hout & msg & E)|(var & Hin & E)];
    rewrite E; clear E.
  - rewrite elem_of_providers in Hout.
    rewrite !lookup_insert_ne, lookup_empty by (intros E; apply Hout; auto).
    eauto.
  - cbn [andb]. revert Hin. unfold Spec.api_key_variable.
    rewrite !elem_of_cons, elem_of_nil.
    intros [H|[H|[H|[]]]]; injection H as -> ->; now simplify_map_eq.
Qed.

(** X4. [validate] accepts a provider exactly when an optional lookup
    finds a non-empty key for it. *)
Theorem validate_iff_key_present (s : string) :
  EnvConfigProvider.validate self environ s = Return tt
  <-> exists k,
        k <> EmptyString
        /\ EnvConfigProvider.get_key self environ s false = Return (Some k).
Proof.
  unfold EnvConfigProvider.validate.
  destruct (get_key_cases s true) as [(Hout & msg & E)|(var & Hin & E)];
    rewrite E; clear E.
  - rewrite (get_key_unknown self environ s false Hout). cbn. split.
    + discriminate.
    + intros (k & _ & H). discriminate H.
  - rewrite (get_key_known self environ s (lower s) var false Hin eq_refl).
    cbn [andb]. destruct (truthy (environ !! var)) eqn:E; cbn.
    + apply truthy_true in E as (k & Hk & Hne). split; [|reflexivity].
      intros _. exists k. now rewrite Hk.
    + split; [discriminate|].
      intros (k & Hne & [= Hk]).
      assert (truthy (environ !! var) = true) as E'
        by (apply truthy_true; eauto).
      congruence.
Qed.

End ConfigProviderUse.

Lemma get_key_required_nonempty_witness :
  exists k, Some "sk-test" = Some k /\ k <> EmptyString.
Proof.
  apply (get_key_required_nonempty EnvConfigProvider.new
           {[ "EADLANGCHAIN_AI_ANTHROPIC_API_KEY" := "sk-test" ]}
           "Anthropic" (Some "sk-test")).
  reflexivity.
Defined.

Lemma get_key_reads_mapped_variable_witness :
  EnvConfigProvider.get_key EnvConfigProvider.new
    {[ "EADLANGCHAIN_AI_OPENAI_API_KEY" := "sk-test" ]} "openai" true =
  EnvConfigProvider.get_key EnvConfigProvider.new
    (<[ "EADLANGCHAIN_AI_GEMINI_API_KEY" := "other" ]>
       {[ "EADLANGCHAIN_AI_OPENAI_API_KEY" := "sk-test" ]}) "openai" true.
Proof.
  apply (get_key_reads_mapped_variable EnvConfigProvider.new
           {[ "EADLANGCHAIN_AI_OPENAI_API_KEY" := "sk-test" ]}
           (<[ "EADLANGCHAIN_AI_GEMINI_API_KEY" := "other" ]>
              {[ "EADLANGCHAIN_AI_OPENAI_API_KEY" := "sk-test" ]})
           "openai" "openai" "EADLANGCHAIN_AI_OPENAI_API_KEY" true
           openai_in_table eq_refl).
  reflexivity.
Defined.

(** * Further properties of [load_env_config] *)

Section LoadEnvConfigEffects.

Variable w : Os.world.

(** The loader leaves the world alone, with or without raising, or adds
    the bindings of one readable file below the ones already there. *)
Lemma load_dotenv_outcome (p : option string) :
  Dotenv.load_dotenv p w = (Return tt, w)
  \/ (exists e, Dotenv.load_dotenv p w = (Raise e, w))
  \/ exists q b,
       Os.fs w !! q = Some (Os.File b)
       /\ Dotenv.load_dotenv p w =
          (Return tt, Os.set_environ w (Os.environ w ∪ b)).
Proof.
  unfold Dotenv.load_dotenv. destruct (Dotenv.disabled w); [now left|].
  destruct (match p with Some q => q | None => Dotenv.find_dotenv w end)
    as [|c q]; [now left|].
  destruct (Os.fs w !! String c q) as [[b| |e]|] eqn:E.
  - right. right. eauto.
  - now left.
  - right. left. eauto.
  - now left.
Qed.

Lemma load_dotenv_find :
  Dotenv.load_dotenv None w =
  Dotenv.load_dotenv (Some (Dotenv.find_dotenv w)) w.
Proof. reflexivity. Qed.

Lemma walk_is_load (dirs : list Path.t) (r : result unit * Os.world) :
  load_env_config_walk dirs w = Some r ->
  exists p, r = Dotenv.load_dotenv (Some p) w.
Proof.
  induction dirs as [|d dirs IH]; cbn [load_env_config_walk];
    [discriminate|].
  destruct (Os.exists_ w _); [|exact IH].
  intros [= <-]. eauto.
Qed.

(** Every path through [load_env_config] ends in one call of the loader. *)
Lemma load_env_config_is_load (env_file : option string) :
  exists p, load_env_config env_file w = Dotenv.load_dotenv (Some p) w.
Proof.
  unfold load_env_config. destruct (truthy env_file) eqn:E.
  - destruct env_file as [p|]; [eauto | discriminate E].
  - destruct (load_env_config_walk _ w) as [r|] eqn:Ewalk.
    + exact (walk_is_load _ _ Ewalk).
    + rewrite load_dotenv_find. eauto.
Qed.

Lemma exists_same_fs (w2 : Os.world) (p : Path.t) :
  Os.fs w = Os.fs w2 -> Os.exists_ w p = Os.exists_ w2 p.
Proof. unfold Os.exists_. now intros ->. Qed.

Lemma isfile_same_fs (w2 : Os.world) (p : string) :
  Os.fs w = Os.fs w2 -> Os.isfile w p = Os.isfile w2 p.
Proof. unfold Os.isfile. now intros ->. Qed.

Lemma walk_same_fs (w2 : Os.world) (dirs : list Path.t) :
  Os.fs w = Os.fs w2 ->
  (load_env_config_walk dirs w = None
   /\ load_env_config_walk dirs w2 = None)
  \/ exists p,
       load_env_config_walk dirs w = Some (Dotenv.load_dotenv (Some p) w)
       /\ load_env_config_walk dirs w2 =
          Some (Dotenv.load_dotenv (Some p) w2).
Proof.
  intros Hfs. induction dirs as [|d dirs IH]; cbn [load_env_config_walk].
  - now left.
  - rewrite <- (exists_same_fs w2 _ Hfs).
    destruct (Os.exists_ w _); [right; eauto | exact IH].
Qed.

Lemma walk_to_root_same_fs (w2 : Os.world) (dirs : list Path.t) :
  Os.fs w = Os.fs w2 ->
  Dotenv.walk_to_root w dirs = Dotenv.walk_to_root w2 dirs.
Proof.
  intros Hfs. induction dirs as [|d dirs IH]; cbn [Dotenv.walk_to_root].
  - reflexivity.
  - rewrite <- (isfile_same_fs w2 _ Hfs).
    destruct (Os.isfile w _); [reflexivity | exact IH].
Qed.

(** Two worlds with the same files, working directory and module
    directory make [load_env_config] settle on the same file. *)
Lemma load_env_config_same_files (w2 : Os.world) (env_file : option string) :
  Os.fs w = Os.fs w2 ->
  Os.cwd w = Os.cwd w2 ->
  Os.module_dir w = Os.module_dir w2 ->
  exists p,
    load_env_config env_file w = Dotenv.load_dotenv (Some p) w
    /\ load_env_config env_file w2 = Dotenv.load_dotenv (Some p) w2.
Proof.
  intros Hfs Hcwd Hmod. unfold load_env_config.
  destruct (truthy env_file) eqn:E.
  - destruct env_file as [p|]; [eauto | discriminate E].
  - unfold Os.Path_cwd. rewrite <- Hcwd.
    destruct (walk_same_fs w2 (Path.mk "/" (Os.cwd w)
                :: Path.parents (Path.mk "/" (Os.cwd w))) Hfs)
      as [[-> ->]|(p & -> & ->)]; [|eauto].
    exists (Dotenv.find_dotenv w). split; [reflexivity|].
    change (Dotenv.load_dotenv None w2)
      with (Dotenv.load_dotenv (Some (Dotenv.find_dotenv w2)) w2).
    unfold Dotenv.find_dotenv. rewrite <- Hmod.
    now rewrite (walk_to_root_same_fs w2 _ Hfs).
Qed.

Lemma load_dotenv_keeps_files (p : option string) :
  Os.cwd (Dotenv.load_dotenv p w).2 = Os.cwd w
  /\ Os.fs (Dotenv.load_dotenv p w).2 = Os.fs w
  /\ Os.module_dir (Dotenv.load_dotenv p w).2 = Os.module_dir w.
Proof.
  destruct (load_dotenv_outcome p) as [E|[[e E]|(q & b & _ & E)]];
    rewrite E; now cbn.
Qed.

Lemma load_dotenv_twice (p : string) :
  (Dotenv.load_dotenv (Some p) w).1 = Return tt ->
  Dotenv.load_dotenv (Some p) (Dotenv.load_dotenv (Some p) w).2 =
  (Return tt, (Dotenv.load_dotenv (Some p) w).2).
Proof.
  unfold Dotenv.load_dotenv at 1 3 4.
  destruct (Dotenv.disabled w) eqn:Eoff; cbn [fst snd].
  { intros _. unfold Dotenv.load_dotenv. now rewrite Eoff. }
  destruct p as [|c p]; cbn [fst snd].
  { intros _. unfold Dotenv.load_dotenv. now rewrite Eoff. }
  destruct (Os.fs w !! String c p) as [[b| |e]|] eqn:E; cbn [fst snd];
    try discriminate;
    try (intros _; unfold Dotenv.load_dotenv; now rewrite Eoff, E).
  intros _. unfold Dotenv.load_dotenv.
  destruct (Dotenv.disabled (Os.set_environ w (Os.environ w ∪ b)));
    [reflexivity|].
  cbn [Os.set_environ Os.fs Os.environ Os.cwd Os.module_dir]. rewrite E.
  unfold Os.set_environ. cbn [Os.environ Os.cwd Os.fs Os.module_dir].
  now rewrite <- (assoc_L (∪)), (idemp_L (∪) b).
Qed.

(** X5. [load_env_config] changes nothing but the environment, and there
    it only adds: every variable that was set keeps its value, whatever
    the file says. *)
Theorem load_env_config_only_adds (env_file : option string) :
  let w' := (load_env_config env_file w).2 in
  Os.cwd w' = Os.cwd w
  /\ Os.fs w' = Os.fs w
  /\ Os.module_dir w' = Os.module_dir w
  /\ (forall k v, Os.environ w !! k = Some v -> Os.environ w' !! k = Some v).
Proof.
  destruct (load_env_config_is_load env_file) as [p Hp]. cbn zeta.
  rewrite Hp.
  destruct (load_dotenv_keeps_files (Some p)) as (Hcwd & Hfs & Hmod).
  repeat split; try assumption.
  intros k v Hk.
  destruct (load_dotenv_outcome (Some p)) as [E|[[e E]|(q & b & _ & E)]];
    rewrite E; cbn; try exact Hk.
  now apply lookup_union_Some_l.
Qed.

(** X6. When a call of [load_env_config] has returned, a second call
    with the same argument returns too and changes nothing more. *)
Theorem load_env_config_idempotent (env_file : option string) :
  (load_env_config env_file w).1 = Return tt ->
  load_env_config env_file (load_env_config env_file w).2 =
  (Return tt, (load_env_config env_file w).2).
Proof.
  intros Hret.
  destruct (load_env_config_is_load env_file) as [q Hq].
  assert (Os.fs w = Os.fs (load_env_config env_file w).2
          /\ Os.cwd w = Os.cwd (load_env_config env_file w).2
          /\ Os.module_dir w = Os.module_dir (load_env_config env_file w).2)
    as (Hfs & Hcwd & Hmod).
  { rewrite Hq.
    destruct (load_dotenv_keeps_files (Some q)) as (-> & -> & ->). auto. }
  destruct (load_env_config_same_files _ env_file Hfs Hcwd Hmod)
    as (p & Hp & Hp2).
  rewrite Hp2. rewrite Hp in Hret |- *. now apply load_dotenv_twice.
Qed.

(** X7. A key that only the loaded file provides is what [get_api_key]
    returns afterwards, when the file can be read and loading is not
    switched off by [PYTHON_DOTENV_DISABLED]. *)
Theorem loaded_key_is_visible
    (p s name var v : string) (b : gmap string string) :
  p <> EmptyString ->
  Os.environ w !! "PYTHON_DOTENV_DISABLED" = None ->
  Os.fs w !! p = Some (Os.File b) ->
  (name, var) ∈ Spec.api_key_variable ->
  lower s = name ->
  Os.environ w !! var = None ->
  b !! var = Some v ->
  v <> EmptyString ->
  get_api_key (Os.environ (load_env_config (Some p) w).2) s true =
  Return (Some v).
Proof.
  intros Hp Hon Hfile Hin Hs Hunset Hb Hv.
  unfold get_api_key.
  rewrite (get_key_known _ _ s name var true Hin Hs).
  assert (Os.environ (load_env_config (Some p) w).2 !! var = Some v) as ->.
  { destruct p as [|c p]; [now destruct Hp|].
    unfold load_env_config, Dotenv.load_dotenv, Dotenv.disabled.
    cbn [truthy]. rewrite Hon, Hfile. cbn.
    rewrite lookup_union_r by exact Hunset. exact Hb. }
  destruct v as [|c v]; [now destruct Hv | reflexivity].
Qed.

(** X8. A directory named [.env] ends the search like a file does: when
    the nearest [.env] is a directory nothing is loaded, whatever the
    directories above hold. *)
Theorem env_directory_stops_search (before after : list Path.t) (d : Path.t) :
  search_chain w = before ++ d :: after ->
  (forall d', d' ∈ before -> Os.exists_ w (env_path d') = false) ->
  Os.fs w !! Path.to_str (env_path d) = Some Os.Dir ->
  load_env_config None w = (Return tt, w).
Proof.
  intros Hchain Hbefore Hdir.
  assert (Os.exists_ w (env_path d) = true) as Hd
    by (unfold Os.exists_; now rewrite Hdir).
  unfold load_env_config. cbn [truthy]. fold (search_chain w).
  rewrite Hchain, (walk_first_match w before after d Hbefore Hd).
  unfold Dotenv.load_dotenv. rewrite Hdir.
  destruct (Dotenv.disabled w); [reflexivity|].
  now destruct (Path.to_str (env_path d)).
Qed.

End LoadEnvConfigEffects.

Lemma loaded_key_is_visible_witness :
  get_api_key
    (Os.environ (load_env_config (Some "/srv/app/.env") keyed_project).2)
    "OpenAI" true =
  Return (Some "test-key-openai").
Proof.
  refine (loaded_key_is_visible keyed_project "/srv/app/.env" "OpenAI"
            "openai" "EADLANGCHAIN_AI_OPENAI_API_KEY" "test-key-openai"
            (<[ "EADLANGCHAIN_LOG_LEVEL" := "DEBUG" ]>
               {[ "EADLANGCHAIN_AI_OPENAI_API_KEY" := "test-key-openai" ]})
            _ eq_refl eq_refl openai_in_table eq_refl eq_refl eq_refl _);
    discriminate.
Defined.

Lemma load_env_config_idempotent_witness :
  load_env_config None (load_env_config None inside_project).2 =
  (Return tt, (load_env_config None inside_project).2).
Proof.
  apply (load_env_config_idempotent inside_project None). reflexivity.
Defined.

(** A [.env] that cannot be decoded makes the call raise, the first time
    and every time after. *)
Example load_env_config_garbled :
  load_env_config None garbled_project =
  (Raise (ValueError "'utf-8' codec can't decode byte 0xff"),
   garbled_project).
Proof. reflexivity. Qed.

(** With [PYTHON_DOTENV_DISABLED] set nothing is loaded. *)
Example load_env_config_disabled :
  Os.environ
    (load_env_config (Some "/srv/app/.env")
       (Os.set_environ keyed_project
          {[ "PYTHON_DOTENV_DISABLED" := "1" ]})).2 =
  {[ "PYTHON_DOTENV_DISABLED" := "1" ]}.
Proof. reflexivity. Qed.

Lemma env_directory_stops_search_witness :
  load_env_config None env_directory_world = (Return tt, env_directory_world).
Proof.
  refine (env_directory_stops_search env_directory_world []
            [Path.mk "/" ["srv"; "app"]; Path.mk "/" ["srv"]; Path.mk "/" []]
            (Path.mk "/" ["srv"; "app"; "src"])
            eq_refl _ eq_refl).
  intros d' Hd'. now apply elem_of_nil in Hd'.
Defined.

(** * The project root *)

Section ProjectRoot.

Variable w : Os.world.

Lemma find_marker_first (dirs : list Path.t) :
  match CustomFormatter.find_marker w dirs with
  | Some r =>
      exists before after,
        dirs = before ++ r :: after
        /\ has_marker w r = true
        /\ (forall d, d ∈ before -> has_marker w d = false)
  | None => forall d, d ∈ dirs -> has_marker w d = false
  end.
Proof.
  induction dirs as [|d dirs IH]; cbn [CustomFormatter.find_marker].
  - intros d Hd. now apply elem_of_nil in Hd.
  - fold (has_marker w d). destruct (has_marker w d) eqn:E.
    + exists [], dirs. repeat split; [exact E|].
      intros d' Hd'. now apply elem_of_nil in Hd'.
    + destruct (CustomFormatter.find_marker w dirs) as [r|].
      * destruct IH as (before & after & -> & Hr & Hbefore).
        exists (d :: before), after. repeat split; [exact Hr|].
        intros d' Hd'. apply elem_of_cons in Hd' as [->|Hd']; auto.
      * intros d' Hd'. apply elem_of_cons in Hd' as [->|Hd']; auto.
Qed.

(** X9. [_find_project_root] returns the nearest directory, from the
    working directory upward, that holds [pyproject.toml] or [.git]; no
    directory nearer than the one it returns holds either.  When none
    does up to the root it returns the working directory itself. *)
Theorem find_project_root_nearest_marker :
  let r := CustomFormatter._find_project_root w in
  (has_marker w r = true
   /\ exists before after,
        search_chain w = before ++ r :: after
        /\ (forall d, d ∈ before -> has_marker w d = false))
  \/ (r = Os.Path_cwd w
      /\ forall d, d ∈ search_chain w -> has_marker w d = false).
Proof.
  cbn zeta. unfold CustomFormatter._find_project_root.
  fold (search_chain w).
  pose proof (find_marker_first (search_chain w)) as H.
  destruct (CustomFormatter.find_marker w (search_chain w)) as [r|].
  - left. destruct H as (before & after & Hchain & Hr & Hbefore). eauto.
  - right. auto.
Qed.

Lemma is_prefix_take (k : nat) (l rest : list string) :
  Path.is_prefix (take k l) (l ++ rest) = true.
Proof.
  revert k. induction l as [|x l IH]; intros [|k]; cbn; try reflexivity.
  now rewrite String.eqb_refl, IH.
Qed.

Lemma proper_prefixes_take (n : nat) (l p : list string) :
  p ∈ Path.proper_prefixes n l -> exists k, p = take k l.
Proof.
  induction n as [|n IH]; cbn [Path.proper_prefixes].
  - intros H. now apply elem_of_nil in H.
  - intros H. apply elem_of_cons in H as [->|H]; eauto.
Qed.

Lemma search_chain_prefix (d : Path.t) :
  d ∈ search_chain w -> exists k, d = Path.mk "/" (take k (Os.cwd w)).
Proof.
  unfold search_chain, Os.Path_cwd, Path.parents. cbn [Path.root Path.parts].
  intros H. apply elem_of_cons in H as [->|H].
  - exists (length (Os.cwd w)). now rewrite firstn_all.
  - apply list_elem_of_fmap in H as (p & -> & Hp).
    apply proper_prefixes_take in Hp as [k ->]. eauto.
Qed.

Lemma find_project_root_in_chain :
  CustomFormatter._find_project_root w ∈ search_chain w.
Proof.
  unfold CustomFormatter._find_project_root. fold (search_chain w).
  pose proof (find_marker_first (search_chain w)) as H.
  destruct (CustomFormatter.find_marker w (search_chain w)) as [r|].
  - destruct H as (before & after & -> & _). apply elem_of_app.
    right. apply list_elem_of_here.
  - apply list_elem_of_here.
Qed.

End ProjectRoot.

Example find_project_root_checkout :
  CustomFormatter._find_project_root checkout = Path.mk "/" ["srv"; "app"].
Proof. vm_compute. reflexivity. Qed.

(** * Further properties of [CustomFormatter.format] *)

Section FormatFields.

Import Logging Inspect.

Variable self : CustomFormatter.t.

(** ** The record that leaves [format] *)

Lemma format_unfold (stack : list frame) (record : LogRecord) :
  exists rel meta,
    CustomFormatter.set_relative_path self record =
      Return (setattr record "relative_path" rel)
    /\ CustomFormatter.get_metaclass_name stack = Return meta
    /\ CustomFormatter.format self stack record =
       Formatter.format (CustomFormatter.fmt self)
         (setattr (setattr record "relative_path" rel) "metaclass_name"
            match meta with
            | EmptyString => EmptyString
            | String _ _ => meta +:+ "."
            end).
Proof.
  destruct (set_relative_path_returns self record) as (rel & Hrel & _).
  destruct (get_metaclass_name_returns stack) as (meta & Hmeta & _).
  exists rel, meta. repeat split; try assumption.
  unfold CustomFormatter.format. rewrite Hrel, Hmeta. now destruct meta.
Qed.

(** What the standard formatter does to a record: it assigns [message]
    and [asctime] at most. *)
Lemma Formatter_format_record (fmt : list segment) (r : LogRecord) :
  let r' := (Formatter.format fmt r).1 in
  (name r', levelname r', pathname r', module r', funcName r', lineno r',
   msg r', args r', created r') =
  (name r, levelname r, pathname r, module r, funcName r, lineno r,
   msg r, args r, created r)
  /\ forall key, key <> "message" -> key <> "asctime" ->
       attrs r' !! key = attrs r !! key.
Proof.
  cbn zeta. unfold Formatter.format.
  destruct (getMessage r) as [m|e]; [|now split].
  destruct (Formatter.usesTime fmt); cbn; (split; [reflexivity|]);
    intros key H1 H2; now rewrite ?lookup_insert_ne by congruence.
Qed.

(** X11. [format] never touches what the logging call put in the record
    (its name, level name, path, module, function, line, message,
    arguments and time of creation) and always leaves the two derived
    attributes set, also when it raises; of the other attributes only
    [message], [asctime] and [exc_text], the cached traceback of a record
    that carries exception information, can change. *)
Theorem format_enriches_record (stack : list frame) (record : LogRecord) :
  let r' := (CustomFormatter.format self stack record).1 in
  (name r', levelname r', pathname r', module r', funcName r', lineno r',
   msg r', args r', created r') =
  (name record, levelname record, pathname record, module record,
   funcName record, lineno record, msg record, args record, created record)
  /\ is_Some (attrs r' !! "relative_path")
  /\ is_Some (attrs r' !! "metaclass_name")
  /\ (forall key,
        key ∉ ["relative_path"; "metaclass_name"; "message"; "asctime";
               "exc_text"] ->
        attrs r' !! key = attrs record !! key).
Proof.
  cbn zeta.
  destruct (format_unfold stack record) as (rel & meta & _ & _ & ->).
  destruct (Formatter_format_record (CustomFormatter.fmt self)
              (setattr (setattr record "relative_path" rel) "metaclass_name"
                 match meta with
                 | EmptyString => EmptyString
                 | String _ _ => meta +:+ "."
                 end)) as (Hfields & Hattrs).
  split; [exact Hfields|]. split; [|split].
  - rewrite Hattrs by discriminate. cbn.
    rewrite lookup_insert_ne by discriminate. rewrite lookup_insert_eq. eauto.
  - rewrite Hattrs by discriminate. cbn. rewrite lookup_insert_eq. eauto.
  - intros key Hkey. rewrite !not_elem_of_cons in Hkey.
    destruct Hkey as (H1 & H2 & H3 & H4 & _ & _).
    rewrite Hattrs by assumption. cbn.
    now rewrite !lookup_insert_ne by congruence.
Qed.

(** X12. The enclosing type name: a caller frame that binds [self] to an
    instance of a class [C] gives ["C."], whatever [cls] is bound to; a
    frame that binds only [cls] gives the name of the class bound to it,
    and the empty string if the object bound to it has no [__name__]; a
    stack of fewer than three frames gives the empty string. *)
Theorem format_metaclass_name_field (stack : list frame) (record : LogRecord) :
  let field :=
    attrs (CustomFormatter.format self stack record).1 !! "metaclass_name" in
  (forall f0 f1 caller rest c0 c,
      stack = f0 :: f1 :: caller :: rest ->
      f_locals caller !! "self" = Some (Instance (String c0 c)) ->
      field = Some (String c0 c +:+ "."))
  /\ (forall f0 f1 caller rest c0 c,
        stack = f0 :: f1 :: caller :: rest ->
        f_locals caller !! "self" = None ->
        f_locals caller !! "cls" = Some (Class (String c0 c)) ->
        field = Some (String c0 c +:+ "."))
  /\ (forall f0 f1 caller rest c,
        stack = f0 :: f1 :: caller :: rest ->
        f_locals caller !! "self" = None ->
        f_locals caller !! "cls" = Some (Instance c) ->
        field = Some EmptyString)
  /\ (length stack < 3 -> field = Some EmptyString)%nat.
Proof.
  cbn zeta.
  destruct (format_unfold stack record) as (rel & meta & _ & Hmeta & ->).
  destruct (Formatter_format_record (CustomFormatter.fmt self)
              (setattr (setattr record "relative_path" rel) "metaclass_name"
                 match meta with
                 | EmptyString => EmptyString
                 | String _ _ => meta +:+ "."
                 end)) as (_ & Hattrs).
  rewrite Hattrs by discriminate. cbn [setattr attrs].
  rewrite lookup_insert_eq.
  unfold CustomFormatter.get_metaclass_name in Hmeta.
  split; [|split; [|split]].
  - intros f0 f1 caller rest c0 c -> Hself.
    cbn in Hmeta. rewrite Hself in Hmeta. cbn in Hmeta.
    now injection Hmeta as <-.
  - intros f0 f1 caller rest c0 c -> Hself Hcls.
    cbn in Hmeta. rewrite Hself, Hcls in Hmeta. cbn in Hmeta.
    now injection Hmeta as <-.
  - intros f0 f1 caller rest c -> Hself Hcls.
    cbn in Hmeta. rewrite Hself, Hcls in Hmeta. cbn in Hmeta.
    now injection Hmeta as <-.
  - intros Hlen.
    destruct stack as [|f0 [|f1 [|caller rest]]]; cbn in Hlen; try lia;
      cbn in Hmeta; now injection Hmeta as <-.
Qed.

End FormatFields.

(** ** The relative path of a file below the project root *)

Lemma replace_char_append (old new : ascii) (a b : string) :
  replace_char old new (a +:+ b) =
  replace_char old new a +:+ replace_char old new b.
Proof.
  induction a as [|c a IH]; [reflexivity|].
  change (String c a +:+ b) with (String c (a +:+ b)).
  cbn [replace_char]. rewrite IH. reflexivity.
Qed.

(** The pieces of a split hold no separator. *)
Lemma split_free (sep new : ascii) (s : string) :
  Forall (fun x => replace_char sep new x = x) (Path.split sep s).
Proof.
  induction s as [|c s IH]; cbn [Path.split].
  - now repeat constructor.
  - destruct (Ascii.eqb c sep) eqn:E.
    + constructor; [reflexivity | exact IH].
    + destruct (Path.split sep s) as [|p ps].
      * repeat constructor. cbn. now rewrite E.
      * inversion IH as [|? ? Hp Hps]; subst.
        constructor; [|exact Hps]. cbn. now rewrite E, Hp.
Qed.

(** The components of a parsed path are non-empty and hold no slash. *)
Lemma parse_parts_free (s : string) :
  Forall (fun x => replace_char "/" "." x = x /\ x <> EmptyString)
    (Path.parts (Path.parse s)).
Proof.
  unfold Path.parse. destruct (Path.splitroot s) as [r rel].
  cbn [Path.parts]. apply List.Forall_forall. intros x Hx.
  apply List.filter_In in Hx as [Hx Hkeep]. split.
  - pose proof (split_free "/" "." rel) as H.
    rewrite List.Forall_forall in H. now apply H.
  - intros ->. discriminate Hkeep.
Qed.

Lemma concat_replace (l : list string) :
  Forall (fun x => replace_char "/" "." x = x) l ->
  replace_char "/" "." (String.concat "/" l) = String.concat "." l.
Proof.
  induction 1 as [|x l Hx Hl IH]; [reflexivity|].
  destruct l as [|y l]; [exact Hx|].
  change (String.concat "/" (x :: y :: l))
    with (x +:+ "/" +:+ String.concat "/" (y :: l)).
  change (String.concat "." (x :: y :: l))
    with (x +:+ "." +:+ String.concat "." (y :: l)).
  rewrite !replace_char_append, Hx, IH. reflexivity.
Qed.

Lemma to_str_relative (x : string) (l : list string) :
  x <> EmptyString ->
  Path.to_str (Path.mk EmptyString (x :: l)) = String.concat "/" (x :: l).
Proof.
  intros Hx. unfold Path.to_str. cbn [Path.root Path.parts].
  change (EmptyString +:+ String.concat "/" (x :: l))
    with (String.concat "/" (x :: l)).
  destruct x as [|c x]; [now destruct Hx|].
  now destruct l.
Qed.

Lemma is_prefix_app (l rest : list string) :
  Path.is_prefix l (l ++ rest) = true.
Proof.
  induction l as [|x l IH]; cbn; [reflexivity|].
  now rewrite String.eqb_refl, IH.
Qed.

Section RelativePath.

Import Logging Inspect.

Variable self : CustomFormatter.t.

(** X13. For a source file below the project root, the relative path
    that [format] attaches is the components below the root joined by
    dots, without a trailing [.py]. *)
Theorem format_relative_path_dotted
    (stack : list frame) (record : LogRecord)
    (x : string) (rest : list string) :
  Path.parse (pathname record) =
    Path.mk (Path.root (CustomFormatter.project_root self))
      (Path.parts (CustomFormatter.project_root self) ++ x :: rest) ->
  attrs (CustomFormatter.format self stack record).1 !! "relative_path" =
  Some (let s := String.concat "." (x :: rest) in
        if endswith s ".py"
        then String.substring 0 (String.length s - 3) s
        else s).
Proof.
  intros Hparse.
  destruct (format_unfold self stack record) as (rel & meta & Hrel & _ & ->).
  destruct (Formatter_format_record (CustomFormatter.fmt self)
              (setattr (setattr record "relative_path" rel) "metaclass_name"
                 match meta with
                 | EmptyString => EmptyString
                 | String _ _ => meta +:+ "."
                 end)) as (_ & Hattrs).
  rewrite Hattrs by discriminate. cbn [setattr attrs].
  rewrite lookup_insert_ne by discriminate. rewrite lookup_insert_eq.
  f_equal.
  pose proof (parse_parts_free (pathname record)) as Hfree.
  rewrite Hparse in Hfree. cbn [Path.parts] in Hfree.
  apply Forall_app in Hfree as [_ Hfree].
  assert (x <> EmptyString) as Hx by (inversion Hfree; tauto).
  assert (Forall (fun y => replace_char "/" "." y = y) (x :: rest)) as Hslash
    by (eapply Forall_impl; [exact Hfree | cbn; tauto]).
  unfold CustomFormatter.set_relative_path in Hrel.
  rewrite Hparse in Hrel. unfold Path.relative_to in Hrel.
  cbn [Path.root Path.parts] in Hrel.
  rewrite String.eqb_refl, is_prefix_app, drop_app_length in Hrel.
  cbn [andb bind try_except] in Hrel.
  rewrite (to_str_relative x rest Hx), (concat_replace _ Hslash) in Hrel.
  injection Hrel as Hrel.
  apply (f_equal (fun m : gmap string string => m !! "relative_path"))
    in Hrel.
  rewrite !lookup_insert_eq in Hrel.
  injection Hrel as <-. reflexivity.
Qed.

End RelativePath.

Lemma format_relative_path_dotted_witness :
  Logging.attrs
    (CustomFormatter.format proj_formatter []
       (plain_record "/proj/src/pkg/mod.py")).1 !! "relative_path" =
  Some "src.pkg.mod".
Proof.
  apply (format_relative_path_dotted proj_formatter []
           (plain_record "/proj/src/pkg/mod.py") "src" ["pkg"; "mod.py"]).
  reflexivity.
Defined.

(** ** When [format] returns *)

Section FormatReturns.

Import Logging Inspect.

Lemma lookup_is_Some (r : LogRecord) (key : string) :
  is_Some (lookup r key)
  <-> key ∈ ["name"; "levelname"; "pathname"; "module"; "funcName";
             "lineno"; "msg"]
      \/ is_Some (attrs r !! key).
Proof.
  unfold lookup. rewrite !elem_of_cons, elem_of_nil.
  repeat match goal with
         | |- context [String.eqb key ?a] =>
             destruct (String.eqb_spec key a) as [->|?]
         end;
    try (split; [intros _; tauto | intros _; eauto]).
  tauto.
Qed.

Lemma usesTime_field_keys (fmt : list segment) :
  Formatter.usesTime fmt = true <-> "asctime" ∈ field_keys fmt.
Proof.
  unfold Formatter.usesTime, field_keys.
  induction fmt as [|[text|key width] fmt IH]; cbn.
  - split; [discriminate | intros H; now apply elem_of_nil in H].
  - exact IH.
  - rewrite elem_of_cons, <- IH.
    destruct (String.eqb_spec key "asctime") as [->|Hne]; cbn.
    + tauto.
    + split; [tauto | intros [E|H]; congruence].
Qed.

Lemma style_format_returns (fmt : list segment) (r : LogRecord) :
  (exists s, style_format fmt r = Return s)
  <-> forall key, key ∈ field_keys fmt -> is_Some (lookup r key).
Proof.
  unfold field_keys.
  induction fmt as [|[text|key width] fmt IH]; cbn.
  - split; [intros _ key H; now apply elem_of_nil in H | eauto].
  - rewrite <- IH. destruct (style_format fmt r) as [s|e]; cbn.
    + split; eauto.
    + split; intros [s H]; discriminate H.
  - split.
    + intros [s H] k Hk. destruct (lookup r key) as [v|] eqn:E;
        [|discriminate H].
      apply elem_of_cons in Hk as [->|Hk]; [rewrite E; eauto|].
      apply IH; [|exact Hk].
      destruct (style_format fmt r) as [s'|e]; [eauto | discriminate H].
    + intros H. destruct (H key) as [v ->]; [apply list_elem_of_here|].
      destruct (proj2 IH) as [s ->]; [|cbn; eauto].
      intros k Hk. apply H. now apply list_elem_of_further.
Qed.

Lemma formatMessage_returns (fmt : list segment) (r : LogRecord) :
  (exists s, Formatter.formatMessage fmt r = Return s)
  <-> exists s, style_format fmt r = Return s.
Proof.
  unfold Formatter.formatMessage.
  destruct (style_format fmt r) as [s|[]]; cbn; split; intros [s' H];
    try discriminate H; eauto.
Qed.

Variable self : CustomFormatter.t.

(** X14. [format] returns a string whenever the message of the record
    formats with its arguments and every field the format string names is
    one of [known_keys] or another attribute the record carries: neither
    the project root nor the call stack can then make it raise. *)
Theorem format_returns_when_fields_known
    (stack : list frame) (record : LogRecord) :
  (exists m, getMessage record = Return m) ->
  (forall key, key ∈ field_keys (CustomFormatter.fmt self) ->
     key ∈ known_keys \/ is_Some (attrs record !! key)) ->
  exists s, (CustomFormatter.format self stack record).2 = Return s.
Proof.
  intros [m Hm] H.
  destruct (format_unfold self stack record) as (rel & meta & _ & _ & ->).
  unfold Formatter.format.
  change (getMessage (setattr (setattr record "relative_path" rel)
                        "metaclass_name" _))
    with (getMessage record).
  rewrite Hm. cbn [snd].
  apply formatMessage_returns, style_format_returns.
  intros key Hkey. apply lookup_is_Some.
  destruct (H key Hkey) as [Hknown|Hattr].
  - unfold known_keys in Hknown. rewrite !elem_of_cons in *.
    rewrite elem_of_nil in Hknown.
    assert (key = "asctime" ->
            Formatter.usesTime (CustomFormatter.fmt self) = true) as Htime
      by (intros ->; now apply usesTime_field_keys).
    destruct (Formatter.usesTime (CustomFormatter.fmt self));
      cbn [setattr attrs]; rewrite ?lookup_insert_is_Some';
      intuition (subst; auto; try discriminate).
  - right.
    destruct (Formatter.usesTime (CustomFormatter.fmt self));
      cbn [setattr attrs]; rewrite ?lookup_insert_is_Some'; auto 10.
Qed.

End FormatReturns.

(** * [setup_logging] *)

Lemma level_check (name : string) (n : N) :
  bind (Root.getattr name) Root._checkLevel = Return n
  <-> (name, n) ∈ level_names.
Proof.
  unfold level_names. rewrite !elem_of_cons, elem_of_nil. split.
  - unfold Root.getattr, Root.namespace. cbn [dict_get].
    repeat match goal with
           | |- context [String.eqb ?a name] =>
               destruct (String.eqb_spec a name) as [<-|?]
           end;
      cbn; intros H; try discriminate H; injection H as <-; tauto.
  - intros H.
    repeat (destruct H as [H|H]; [injection H as -> ->; reflexivity|]).
    destruct H.
Qed.

Section SetupLoggingProperties.

Variable Formatter_init :
  list Logging.segment -> result (list Logging.segment).
Variable mkdir_parents : Path.t -> Os.world -> result Os.world.
Variable FileHandler_open : string -> Os.world -> result Os.world.

Variable level log_file : option string.
Variable format_string : option (list Logging.segment).
Variable root_logger : Root.Logger.
Variable w : Os.world.

Let out : result Root.Logger * Root.Logger * Os.world :=
  setup_logging Formatter_init mkdir_parents FileHandler_open
    level log_file format_string root_logger w.

(** X15. When [setup_logging] returns, the root logger has the level
    that the requested name stands for: the name is the [level] argument
    if given, else the value of [EADLANGCHAIN_LOG_LEVEL], else [INFO], and
    it is read without regard to case. *)
Theorem setup_logging_level (logger : Root.Logger) :
  out.1.1 = Return logger ->
  (upper (effective_level level w), Root.level logger) ∈ level_names
  /\ out.1.2 = logger.
Proof.
  unfold out, setup_logging. fold (effective_level level w).
  destruct (CustomFormatter_new Formatter_init w _) as [f|e];
    [|discriminate].
  destruct (bind (Root.getattr (upper (effective_level level w)))
              Root._checkLevel) as [n|e] eqn:E; [|discriminate].
  apply level_check in E.
  destruct (match log_file with
            | Some f0 => Some f0
            | None => Os.environ w !! "EADLANGCHAIN_LOG_FILE"
            end) as [[|c p]|]; cbn [fst snd].
  - now intros [= <-].
  - destruct (mkdir_parents _ w) as [w1|e]; [|discriminate].
    destruct (FileHandler_open _ w1) as [w2|e]; [|discriminate].
    now intros [= <-].
  - now intros [= <-].
Qed.

(** X16. When [setup_logging] returns, the handlers of the root logger
    are the new console handler, followed by the file handler if a
    non-empty log file was asked for by argument or by
    [EADLANGCHAIN_LOG_FILE]; both carry the one new formatter, and the
    handlers the logger had before are gone. *)
Theorem setup_logging_handlers (logger : Root.Logger) :
  out.1.1 = Return logger ->
  exists formatter,
    Root.handlers logger =
    Root.StreamHandler formatter ::
      match effective_log_file log_file w with
      | Some (String _ _ as f) => [Root.FileHandler f formatter]
      | _ => []
      end.
Proof.
  unfold out, setup_logging. fold (effective_log_file log_file w).
  destruct (CustomFormatter_new Formatter_init w _) as [f|e];
    [|discriminate].
  destruct (bind (Root.getattr _) Root._checkLevel) as [n|e];
    [|discriminate].
  destruct (effective_log_file log_file w) as [[|c p]|]; cbn [fst snd].
  - intros [= <-]. now exists f.
  - destruct (mkdir_parents _ w) as [w1|e]; [|discriminate].
    destruct (FileHandler_open _ w1) as [w2|e]; [|discriminate].
    intros [= <-]. now exists f.
  - intros [= <-]. now exists f.
Qed.

(** X17. A level name that is none of the standard ones makes
    [setup_logging] raise before it touches anything: the root logger
    keeps its level and its handlers, and no directory or file is made. *)
Theorem setup_logging_unknown_level :
  (forall n, (upper (effective_level level w), n) ∉ level_names) ->
  raises out.1.1 /\ out.1.2 = root_logger /\ out.2 = w.
Proof.
  intros Hbad. unfold out, setup_logging. fold (effective_level level w).
  destruct (CustomFormatter_new Formatter_init w _) as [f|e];
    [|cbn; unfold raises; eauto].
  destruct (bind (Root.getattr (upper (effective_level level w)))
              Root._checkLevel) as [n|e] eqn:E;
    [|cbn; unfold raises; eauto].
  apply level_check in E. now destruct (Hbad n).
Qed.

End SetupLoggingProperties.

Lemma setup_logging_level_witness :
  (upper "debug", 10) ∈ level_names.
Proof.
  apply (setup_logging_level accept_format accept_path accept_file
           (Some "debug") None None fresh_root checkout
           (Root.mkLogger 10
              [Root.StreamHandler
                 (CustomFormatter.mk default_format_string
                    (Path.mk "/" ["srv"; "app"]))])).
  reflexivity.
Defined.

Lemma setup_logging_handlers_witness :
  exists formatter,
    [Root.StreamHandler
       (CustomFormatter.mk default_format_string (Path.mk "/" ["srv"; "app"]));
     Root.FileHandler "logs/app.log"
       (CustomFormatter.mk default_format_string (Path.mk "/" ["srv"; "app"]))]
    = [Root.StreamHandler formatter;
       Root.FileHandler "logs/app.log" formatter].
Proof.
  apply (setup_logging_handlers accept_format accept_path accept_file
           None (Some "logs/app.log") None
           (Root.mkLogger 30
              [Root.StreamHandler
                 (CustomFormatter.mk [] (Path.mk "/" []))])
           checkout
           (Root.mkLogger 20
              [Root.StreamHandler
                 (CustomFormatter.mk default_format_string
                    (Path.mk "/" ["srv"; "app"]));
               Root.FileHandler "logs/app.log"
                 (CustomFormatter.mk default_format_string
                    (Path.mk "/" ["srv"; "app"]))])).
  reflexivity.
Defined.

(** An empty [EADLANGCHAIN_LOG_LEVEL] is not replaced by the default. *)
Lemma setup_logging_unknown_level_witness :
  raises
    (setup_logging accept_format accept_path accept_file None None None
       fresh_root
       (Os.set_environ checkout
          {[ "EADLANGCHAIN_LOG_LEVEL" := EmptyString ]})).1.1.
Proof.
  apply (setup_logging_unknown_level accept_format accept_path accept_file
           None None None fresh_root
           (Os.set_environ checkout
              {[ "EADLANGCHAIN_LOG_LEVEL" := EmptyString ]})).
  intros n Hn. unfold level_names in Hn.
  rewrite !elem_of_cons, elem_of_nil in Hn.
  repeat (destruct Hn as [Hn|Hn]; [discriminate Hn|]). destruct Hn.
Defined.

Lemma format_returns_when_fields_known_witness :
  exists s,
    (CustomFormatter.format proj_formatter []
       (plain_record "/elsewhere/mod.py")).2 = Return s.
Proof.
  apply (format_returns_when_fields_known proj_formatter []
           (plain_record "/elsewhere/mod.py")).
  - eexists. reflexivity.
  - intros key Hkey. left. revert key Hkey. apply Forall_forall.
    unfold known_keys. cbn.
    repeat (constructor; [rewrite !elem_of_cons; tauto|]). constructor.
Defined.

(** * A detected root and the files below the working directory *)

Section DetectedRoot.

Import Logging Inspect.

Variable w : Os.world.
Variable self : CustomFormatter.t.

Lemma set_relative_path_below
    (record : LogRecord) (x : string) (rest : list string) :
  Path.parse (pathname record) =
    Path.mk (Path.root (CustomFormatter.project_root self))
      (Path.parts (CustomFormatter.project_root self) ++ x :: rest) ->
  CustomFormatter.set_relative_path self record =
  Return (setattr record "relative_path"
            (let s := String.concat "." (x :: rest) in
             if endswith s ".py"
             then String.substring 0 (String.length s - 3) s
             else s)).
Proof.
  intros Hparse.
  pose proof (parse_parts_free (pathname record)) as Hfree.
  rewrite Hparse in Hfree. cbn [Path.parts] in Hfree.
  apply Forall_app in Hfree as [_ Hfree].
  assert (x <> EmptyString) as Hx by (inversion Hfree; tauto).
  assert (Forall (fun y => replace_char "/" "." y = y) (x :: rest)) as Hslash
    by (eapply Forall_impl; [exact Hfree | cbn; tauto]).
  unfold CustomFormatter.set_relative_path.
  rewrite Hparse. unfold Path.relative_to. cbn [Path.root Path.parts].
  rewrite String.eqb_refl, is_prefix_app, drop_app_length.
  cbn [andb bind try_except].
  now rewrite (to_str_relative x rest Hx), (concat_replace _ Hslash).
Qed.

(** X10. A formatter whose root is the one [_find_project_root] detects
    never takes the module-name fallback for a source file below the
    working directory: the detected root lies on the way from the working
    directory to the file system root, and [format] attaches the
    components of the file below that root, joined by dots, without a
    trailing [.py]. *)
Theorem detected_root_covers_cwd
    (stack : list frame) (record : LogRecord)
    (x : string) (rest : list string) :
  CustomFormatter.project_root self = CustomFormatter._find_project_root w ->
  Path.parse (pathname record) = Path.mk "/" (Os.cwd w ++ x :: rest) ->
  exists y below,
    Os.cwd w ++ x :: rest =
      Path.parts (CustomFormatter._find_project_root w) ++ y :: below
    /\ attrs (CustomFormatter.format self stack record).1
         !! "relative_path" =
       Some (let s := String.concat "." (y :: below) in
             if endswith s ".py"
             then String.substring 0 (String.length s - 3) s
             else s).
Proof.
  intros Hroot Hparse.
  destruct (search_chain_prefix w _ (find_project_root_in_chain w))
    as [k Hk].
  assert (exists y below,
             Os.cwd w ++ x :: rest = take k (Os.cwd w) ++ y :: below)
    as (y & below & Hsplit).
  { assert (Os.cwd w ++ x :: rest =
            take k (Os.cwd w) ++ (drop k (Os.cwd w) ++ x :: rest)) as E
      by (now rewrite app_assoc, take_drop).
    destruct (drop k (Os.cwd w)) as [|a l]; cbn in E; eauto. }
  exists y, below. rewrite Hk. cbn [Path.parts]. split; [exact Hsplit|].
  destruct (format_unfold self stack record) as (rel & meta & Hrel & _ & ->).
  destruct (Formatter_format_record (CustomFormatter.fmt self)
              (setattr (setattr record "relative_path" rel) "metaclass_name"
                 match meta with
                 | EmptyString => EmptyString
                 | String _ _ => meta +:+ "."
                 end)) as (_ & Hattrs).
  rewrite Hattrs by discriminate. cbn [setattr attrs].
  rewrite lookup_insert_ne by discriminate. rewrite lookup_insert_eq.
  f_equal.
  rewrite (set_relative_path_below record y below) in Hrel.
  - injection Hrel as Hrel.
    apply (f_equal (fun m : gmap string string => m !! "relative_path"))
      in Hrel.
    rewrite !lookup_insert_eq in Hrel. now injection Hrel as <-.
  - rewrite Hparse, Hroot, Hk. cbn [Path.root Path.parts].
    now rewrite Hsplit.
Qed.

End DetectedRoot.

Lemma detected_root_covers_cwd_witness :
  exists y below,
    ["srv"; "app"; "src"; "pkg"; "mod.py"] =
      Path.parts (CustomFormatter._find_project_root checkout) ++ y :: below
    /\ Logging.attrs
         (CustomFormatter.format
            (CustomFormatter.mk default_format_string
               (CustomFormatter._find_project_root checkout))
            [] (plain_record "/srv/app/src/pkg/mod.py")).1
         !! "relative_path" =
       Some (let s := String.concat "." (y :: below) in
             if endswith s ".py"
             then String.substring 0 (String.length s - 3) s
             else s).
Proof.
  apply (detected_root_covers_cwd checkout
           (CustomFormatter.mk default_format_string
              (CustomFormatter._find_project_root checkout))
           [] (plain_record "/srv/app/src/pkg/mod.py") "mod.py" []);
    reflexivity.
Defined.

Example detected_root_relative_path :
  Logging.attrs
    (CustomFormatter.format
       (CustomFormatter.mk default_format_string
          (CustomFormatter._find_project_root checkout))
       [] (plain_record "/srv/app/src/pkg/mod.py")).1
    !! "relative_path" = Some "src.pkg.mod".
Proof. vm_compute. reflexivity. Qed.
